(** * Hualien recall-vote dashboard: highlight synchronisation and shared ranges

    A shallow embedding of [map_data_presentaiton.py] and [utils.py].
    Numbers are IEEE binary64 values (Python [float]), held as Rocq primitive
    floats; integer-valued columns and the integer literal [0] of the range
    lists are read as the floats they denote.  Python exceptions are the
    [Raise] branch of [result]. *)

From Stdlib Require Import ZArith Ascii Floats.PrimFloat.
From stdpp Require Import gmap strings list pretty.

Set Warnings "-inexact-float".

(** ** Python values, exceptions and string tests *)

Module Py.

Inductive exn : Type :=
| KeyError (key : string)
| ValueError (what : string)
| AttributeError (attr : string)
| IndexError.

Inductive result (A : Type) : Type :=
| Ok (a : A)
| Raise (e : exn).
Arguments Ok {A} a.
Arguments Raise {A} e.

#[global] Instance result_ret : MRet result := λ A a, Ok a.

#[global] Instance result_bind : MBind result := λ A B k r,
  match r with
  | Ok a => k a
  | Raise e => Raise e
  end.

Definition is_Ok {A} (r : result A) : Prop := ∃ a, r = Ok a.

(** [str.lower()] on the ASCII range (column names are ASCII). *)
Definition lower_ascii (c : ascii) : ascii :=
  let n := nat_of_ascii c in
  if (65 <=? n)%nat && (n <=? 90)%nat then ascii_of_nat (n + 32) else c.

Fixpoint lower (s : string) : string :=
  match s with
  | EmptyString => EmptyString
  | String c s' => String (lower_ascii c) (lower s')
  end.

(** [s.startswith(p)] *)
Definition startswith (s p : string) : bool := String.prefix p s.

(** [needle in hay] on strings. *)
Fixpoint contains (needle hay : string) : bool :=
  String.prefix needle hay ||
  match hay with
  | EmptyString => false
  | String _ hay' => contains needle hay'
  end.

(** [s.replace('_', ' ')] *)
Fixpoint replace_underscore (s : string) : string :=
  match s with
  | EmptyString => EmptyString
  | String c s' =>
      String (if Ascii.eqb c "_" then " "%char else c) (replace_underscore s')
  end.

Definition is_upper (c : ascii) : bool :=
  let n := nat_of_ascii c in (65 <=? n)%nat && (n <=? 90)%nat.
Definition is_lower (c : ascii) : bool :=
  let n := nat_of_ascii c in (97 <=? n)%nat && (n <=? 122)%nat.
Definition upper_ascii (c : ascii) : ascii :=
  if is_lower c then ascii_of_nat (nat_of_ascii c - 32) else c.

(** [str.title()] on the ASCII range: a letter that follows a letter is
    lowered, any other letter is raised. *)
Fixpoint title_from (previous_is_cased : bool) (s : string) : string :=
  match s with
  | EmptyString => EmptyString
  | String c s' =>
      let cased := is_upper c || is_lower c in
      String (if cased then
                if previous_is_cased then lower_ascii c else upper_ascii c
              else c)
             (title_from cased s')
  end.
Definition title (s : string) : string := title_from false s.

(** Truth value of a control value: [None] and [""] are falsy. *)
Definition truthy (v : option string) : bool :=
  match v with
  | None | Some EmptyString => false
  | Some _ => true
  end.

(** The builtin [max(a, b)]: [b] when [b > a], else [a]. *)
Definition max (a b : float) : float :=
  if PrimFloat.ltb a b then b else a.

End Py.

Import Py.

(** ** The dataset: a GeoDataFrame with a default integer index *)

Module Pandas.

Definition coord : Type := float * float.   (* (lon, lat) *)

Record Polygon : Type := mkPolygon { exterior : list coord }.

Inductive Geometry : Type :=
| GPolygon (p : Polygon)              (* geom_type == "Polygon" *)
| GMultiPolygon (geoms : list Polygon) (* geom_type == "MultiPolygon" *)
| GOther.                              (* any other geom_type *)

Record DataFrame : Type := mkDataFrame {
  columns : gmap string (list float);   (* the numeric measure columns *)
  area_name : list string;
  region : list string;
  geometry : list Geometry;
}.

(** [len(df)] *)
Definition len (df : DataFrame) : Z := Z.of_nat (length (geometry df)).

(** Every column holds one cell per row. *)
Definition wf_df (df : DataFrame) : Prop :=
  map_Forall (λ _ s, length s = length (geometry df)) (columns df).

(** [df[col]] for the name of a numeric column or of no column.  The
    string columns [area_name] and [region] and the geometry are fields of
    their own; the renders reach them through [hover_name], [hover_data] and
    [df.geometry], and selecting one of them as a measure is outside this
    model. *)
Definition getitem (df : DataFrame) (col : string) : result (list float) :=
  match columns df !! col with
  | Some s => Ok s
  | None => Raise (KeyError col)
  end.

Definition is_nan (v : float) : bool := negb (PrimFloat.eqb v v).

Definition dropna (s : list float) : list float :=
  List.filter (λ v, negb (is_nan v)) s.

(** [Series.max()] with the default [skipna=True]: the greatest value that
    is not NaN, and NaN for a series without such a value. *)
Definition series_max (s : list float) : float :=
  match dropna s with
  | [] => nan
  | v :: vs => fold_left (λ acc w, if PrimFloat.ltb acc w then w else acc) vs v
  end.

(** [Series.min()] *)
Definition series_min (s : list float) : float :=
  match dropna s with
  | [] => nan
  | v :: vs => fold_left (λ acc w, if PrimFloat.ltb w acc then w else acc) vs v
  end.

(** [df.iloc[i]] restricted to one column or to the geometry: positional,
    negative positions count from the end, out of range raises. *)
Definition iloc {A} (l : list A) (i : Z) : result A :=
  let n := Z.of_nat (length l) in
  let j := if (i <? 0)%Z then (i + n)%Z else i in
  if (0 <=? j)%Z && (j <? n)%Z then
    match l !! Z.to_nat j with
    | Some a => Ok a
    | None => Raise IndexError
    end
  else Raise IndexError.

End Pandas.

Import Pandas.

(** ** Figures: the part of plotly's figure structure the dashboard sets *)

Module Plotly.

(** A Python two-element list [[lo, hi]]. *)
Definition Range : Type := float * float.

Inductive TraceType : Type := Scatter | Scattermapbox | Choroplethmapbox.
Inductive ColorScale : Type := RdYlGn | Viridis.

Record Marker : Type := mkMarker {
  marker_size : Z; marker_color : string; marker_symbol : string;
  marker_line_width : Z; marker_line_color : string;
}.

Record Line : Type := mkLine {
  line_width : Z; line_color : string; line_dash : option string;
}.

(** One trace.  [trace_x] and [trace_y] are plotly's [x] and [y]; [color]
    is the per-point value bound to the colour axis; [hovertext] and
    [customdata] carry [hover_name] and the ["region"] hover column. *)
Record Trace : Type := mkTrace {
  ttype : TraceType;
  name : option string;
  trace_x : list float; trace_y : list float;
  lon : list float; lat : list float;
  geojson : list Geometry; locations : list Z; z : list float;
  color : list float;
  hovertext : list string; customdata : list string;
  mode : option string;
  marker : option Marker;
  line : option Line;
  fill : option string; fillcolor : option string;
  showlegend : option bool;
  hoverinfo : option string;
}.

Record Axis : Type := mkAxis {
  range : option Range; axis_title : option string;
}.

Record ColorBar : Type := mkColorBar {
  bar_title : option string;
  colorbar_horizontal : bool;   (* the x/y/anchor/len/thickness block *)
}.

Record ColorAxis : Type := mkColorAxis {
  colorscale : option ColorScale;
  crange : option Range;        (* cmin, cmax *)
  colorbar : ColorBar;
}.

Record Margin : Type := mkMargin {
  margin_r : option Z; margin_t : option Z;
  margin_l : option Z; margin_b : option Z;
}.

Record Layout : Type := mkLayout {
  height : option Z;
  margin : Margin;
  title : option string;
  title_x : option float;
  xaxis : Axis; yaxis : Axis;
  coloraxis : ColorAxis;
}.

Record Figure : Type := mkFigure { data : list Trace; layout : Layout }.

Definition empty_layout : Layout :=
  {| height := None; margin := mkMargin None None None None;
     title := None; title_x := None;
     xaxis := mkAxis None None; yaxis := mkAxis None None;
     coloraxis := mkColorAxis None None (mkColorBar None false) |}.

(** [go.Figure()] *)
Definition go_Figure : Figure := {| data := []; layout := empty_layout |}.

(** [fig.add_trace(t)] *)
Definition add_trace (fig : Figure) (t : Trace) : Figure :=
  {| data := data fig ++ [t]; layout := layout fig |}.

(** The [figure] property of a graph as the browser hands it back: a dict
    that may lack the ["data"] or the ["layout"] key. *)
Record FigureDict : Type := mkFigureDict {
  fd_data : option (list Trace); fd_layout : option Layout;
}.

(** [go.Scatter(x=, y=, mode=, marker=, line=, name=, showlegend=False,
    hoverinfo=)] *)
Definition go_Scatter (x y : list float) (md : string) (mk : option Marker)
    (ln : option Line) (nm : string) (hi : option string) : Trace :=
  {| ttype := Scatter; name := Some nm; trace_x := x; trace_y := y;
     lon := []; lat := []; geojson := []; locations := []; z := [];
     color := []; hovertext := []; customdata := [];
     mode := Some md; marker := mk; line := ln;
     fill := None; fillcolor := None;
     showlegend := Some false; hoverinfo := hi |}.

(** [go.Scattermapbox(lon=, lat=, mode="lines", line=dict(width=3,
    color="red"), fill="toself", fillcolor="rgba(255, 0, 0, 0.2)", name=,
    showlegend=False, hoverinfo="skip")] *)
Definition go_Scattermapbox (lons lats : list float) (nm : string) : Trace :=
  {| ttype := Scattermapbox; name := Some nm; trace_x := []; trace_y := [];
     lon := lons; lat := lats; geojson := []; locations := []; z := [];
     color := []; hovertext := []; customdata := [];
     mode := Some "lines"; marker := None;
     line := Some (mkLine 3 "red" None);
     fill := Some "toself"; fillcolor := Some "rgba(255, 0, 0, 0.2)";
     showlegend := Some false; hoverinfo := Some "skip" |}.

(** plotly express looks its column arguments up in the frame and raises
    [ValueError] for a name that is not a column; as for [getitem], the name
    is that of a numeric column or of no column. *)
Definition px_column (df : DataFrame) (col : string) : result (list float) :=
  match columns df !! col with
  | Some s => Ok s
  | None => Raise (ValueError col)
  end.

(** The single trace of [px.scatter]: every row, in row order, coloured by
    its own [y] value; plotly express names it [""]. *)
Definition px_scatter_trace (df : DataFrame) (xs ys : list float) : Trace :=
  {| ttype := Scatter; name := Some ""; trace_x := xs; trace_y := ys;
     lon := []; lat := []; geojson := []; locations := []; z := [];
     color := ys; hovertext := area_name df; customdata := region df;
     mode := Some "markers"; marker := None; line := None;
     fill := None; fillcolor := None;
     showlegend := Some false; hoverinfo := None |}.

(** [px.scatter(df, x=, y=, hover_name="area_name", hover_data=[..,
    "region"], color=y, color_continuous_scale=, range_color=)] *)
Definition px_scatter (df : DataFrame) (x y : string) (cs : ColorScale)
    (range_color : option Range) : result Figure :=
  xs ← px_column df x;
  ys ← px_column df y;
  mret
    {| data := [px_scatter_trace df xs ys];
       layout :=
         {| height := None; margin := mkMargin None (Some 60%Z) None None;
            title := None; title_x := None;
            xaxis := mkAxis None (Some x); yaxis := mkAxis None (Some y);
            coloraxis :=
              mkColorAxis (Some cs) range_color (mkColorBar (Some y) false) |} |}.

(** The single trace of [px.choropleth_mapbox]: one location per row,
    [locations=df.index]. *)
Definition px_choropleth_trace (df : DataFrame) (zs : list float) : Trace :=
  {| ttype := Choroplethmapbox; name := Some "";
     trace_x := []; trace_y := []; lon := []; lat := [];
     geojson := geometry df;
     locations := Z.of_nat <$> seq 0 (length (geometry df));
     z := zs; color := zs;
     hovertext := area_name df; customdata := region df;
     mode := None; marker := None; line := None;
     fill := None; fillcolor := None;
     showlegend := None; hoverinfo := None |}.

(** [px.choropleth_mapbox(df, geojson=df.geometry.__geo_interface__,
    locations=df.index, color=, hover_name="area_name", hover_data=[..,
    "region"], color_continuous_scale=, range_color=, ...)].  The map view
    (style, zoom, centre, opacity) is left out; nothing below reads it. *)
Definition px_choropleth_mapbox (df : DataFrame) (col : string)
    (cs : ColorScale) (range_color : option Range) : result Figure :=
  zs ← px_column df col;
  mret
    {| data := [px_choropleth_trace df zs];
       layout :=
         {| height := None; margin := mkMargin None (Some 60%Z) None None;
            title := None; title_x := None;
            xaxis := mkAxis None None; yaxis := mkAxis None None;
            coloraxis :=
              mkColorAxis (Some cs) range_color (mkColorBar (Some col) false) |} |}.

End Plotly.

Import Plotly.

(** ** [utils.py] *)

Record ScatterConfig : Type := mkScatterConfig { upper : string; lower : string }.

Definition scatter_configs : gmap string ScatterConfig :=
  {[ "Support vote rate" := mkScatterConfig "legislator_rate" "against_recall_rate";
     "Support vote" := mkScatterConfig "legislator_vote" "against_recall_vote";
     "Voting Rate" := mkScatterConfig "legislator_voting_rate" "recall_voting_rate";
     "Total Voter" :=
       mkScatterConfig "legislator_total_voter_count" "recall_vote_total_voter_count" ]}.

Definition title_mapping : gmap string string :=
  list_to_map
    [ ("legislator_rate", "2024 立委得票率");
      ("against_recall_rate", "2025 反罷免得票率");
      ("legislator_vote", "2024 立委得票數");
      ("against_recall_vote", "2025 反罷免得票數");
      ("legislator_voting_rate", "2024 立委投票率");
      ("recall_voting_rate", "2025 罷免投票率");
      ("legislator_total_voter_count", "2024 立委投票人數");
      ("recall_vote_total_voter_count", "2025 罷免投票人數");
      ("legislator_total_voter_density", "2024 人口密度 (人/平方公里)");
      ("recall_vote_total_voter_density", "2025 人口密度 (人/平方公里)");
      ("region", "鄉鎮");
      ("area_name", "村里");
      ("legislator_total_vote", "2024 立委選舉有效票數");
      ("legislator_invalid_vote", "2024 立委選舉無效票數");
      ("recall_vote_total_vote", "2025 罷免案有效票數");
      ("recall_vote_invalid_vote", "2025 罷免案無效票數");
      ("recall_invalid_rate", "2025 罷免案無效票率");
      ("recall_rate", "2025 罷免得票率");
      ("recall_vote", "2025 罷免得票數");
      ("recall_vote_count", "2025 罷免投票人數");
      ("legislator_invalid_rate", "2024 立委無效票率");
      ("area_sq_km", "面積 (平方公里)");
      ("village_neighborhood", "投開票里鄰");
      ("Support vote rate", "支持率");
      ("Support vote", "支持票數");
      ("Voting Rate", "投票率");
      ("Total Voter", "投票人數") ].

(** [title_mapping.get(column_name, column_name.replace('_', ' ').title())]:
    the default is evaluated before the lookup, so [None] raises. *)
Definition get_axis_title (column_name : option string) : result string :=
  match column_name with
  | None => Raise (AttributeError "replace")
  | Some c =>
      let fallback := Py.title (Py.replace_underscore c) in
      Ok (default fallback (title_mapping !! c))
  end.

(** ** [calculate_consistent_ranges] *)

(** ["rate" in col.lower()] *)
Definition is_rate (col : string) : bool := Py.contains "rate" (Py.lower col).

Definition calculate_consistent_ranges
    (df : DataFrame) (upper_col lower_col x_axis_column : string)
  : result (Range * Range * Range) :=
  xs ← getitem df x_axis_column ;
  let x_max := series_max xs in
  let x_range := ((- x_max) * 0.02, x_max * 1.02)%float in
  if is_rate upper_col && is_rate lower_col then
    Ok (x_range, (0, 1.05)%float, (0, 1.05)%float)
  else
    us ← getitem df upper_col ;
    ls ← getitem df lower_col ;
    let max_val := Py.max (series_max us) (series_max ls) in
    Ok (x_range, (0, max_val * 1.05)%float, (0, max_val * 1.05)%float).


(** ** [create_scatter_plot] *)

(** The red diamond drawn over the highlighted point. *)
Definition highlight_marker (xv yv : float) : Trace :=
  go_Scatter [xv] [yv] "markers"
    (Some (mkMarker 15 "red" "diamond" 2 "black")) None "Highlighted"
    (Some "skip").

(** [0 <= i < len(df)] *)
Definition in_bounds (df : DataFrame) (i : Z) : bool :=
  (0 <=? i)%Z && (i <? len df)%Z.

(** [df.iloc[i][col]] *)
Definition iloc_cell (df : DataFrame) (i : Z) (col : string) : result float :=
  s ← getitem df col; iloc s i.

Definition create_scatter_plot (df : DataFrame) (y_column x_column : string)
    (highlight_index : option Z) (x_range y_range color_range : option Range)
    (x_title y_title : option string) : result Figure :=
  '(color_range, y_range, color_scale) ←
    (if is_rate y_column then
       Ok (default (0, 1)%float color_range, default (0, 1)%float y_range, RdYlGn)
     else
       color_range ← match color_range with
                     | Some r => Ok r
                     | None => ys ← getitem df y_column; Ok (0%float, series_max ys)
                     end;
       y_range ← match y_range with
                 | Some r => Ok r
                 | None => ys ← getitem df y_column; Ok (0%float, series_max ys)
                 end;
       Ok (color_range, y_range, Viridis));
  x_range ← match x_range with
            | Some r => Ok r
            | None => xs ← getitem df x_column; Ok (series_min xs, series_max xs)
            end;
  fig ← px_scatter df x_column y_column color_scale (Some color_range);
  fig ← match highlight_index with
        | Some i =>
            if in_bounds df i then
              xv ← iloc_cell df i x_column;
              yv ← iloc_cell df i y_column;
              Ok (add_trace fig (highlight_marker xv yv))
            else Ok fig
        | None => Ok fig
        end;
  let lay := layout fig in
  Ok {| data := data fig;
        layout :=
          {| height := Some 280%Z;
             margin := mkMargin (Some 10%Z) (Some 40%Z) (Some 10%Z) (Some 10%Z);
             title := title lay;
             title_x := Some 0.5%float;
             xaxis := mkAxis (Some x_range)
                        (if Py.truthy x_title then x_title
                         else axis_title (xaxis lay));
             yaxis := mkAxis (Some y_range)
                        (if Py.truthy y_title then y_title
                         else axis_title (yaxis lay));
             coloraxis :=
               mkColorAxis (colorscale (coloraxis lay)) (crange (coloraxis lay))
                 (mkColorBar (Some "")
                    (colorbar_horizontal (colorbar (coloraxis lay)))) |} |}.

(** ** [create_map_plot] *)

(** The outline of one polygon: longitudes and latitudes of its exterior. *)
Definition outline_trace (polygon : Polygon) (nm : string) : Trace :=
  let coords := exterior polygon in
  go_Scattermapbox (fst <$> coords) (snd <$> coords) nm.

(** The traces added for a highlighted geometry: one named ["Highlighted"]
    for a polygon, one named ["Highlighted_<i>"] per part of a multi-polygon,
    none for another geometry type.  The source has this block twice, in
    [create_map_plot] and in the hover callback. *)
Definition highlight_traces (highlighted_geom : Geometry) : list Trace :=
  match highlighted_geom with
  | GPolygon p => [outline_trace p "Highlighted"]
  | GMultiPolygon geoms =>
      imap (λ i polygon, outline_trace polygon ("Highlighted_" +:+ pretty i)) geoms
  | GOther => []
  end.

Definition add_traces (fig : Figure) (ts : list Trace) : Figure :=
  foldl add_trace fig ts.

Definition create_map_plot (df : DataFrame) (selected_column : option string)
    (highlight_index : option Z) (colorbar_title : option string)
  : result Figure :=
  if negb (Py.truthy selected_column) then Ok go_Figure else
  match selected_column with
  | None => Ok go_Figure
  | Some col =>
      '(color_range, color_scale) ←
        (if is_rate col then Ok ((0, 1)%float, RdYlGn)
         else zs ← getitem df col; Ok ((0%float, series_max zs), Viridis));
      fig ← px_choropleth_mapbox df col color_scale (Some color_range);
      fig ← match highlight_index with
            | Some i =>
                if in_bounds df i then
                  highlighted_geom ← iloc (geometry df) i;
                  Ok (add_traces fig (highlight_traces highlighted_geom))
                else Ok fig
            | None => Ok fig
            end;
      let lay := layout fig in
      Ok {| data := data fig;
            layout :=
              {| height := Some 600%Z;
                 margin := mkMargin (Some 0%Z) (Some 0%Z) (Some 0%Z) (Some 0%Z);
                 title := Some ("Choropleth Map: " +:+ col);
                 title_x := Some 0.5%float;
                 xaxis := xaxis lay; yaxis := yaxis lay;
                 coloraxis :=
                   mkColorAxis (colorscale (coloraxis lay))
                     (crange (coloraxis lay))
                     (mkColorBar
                        (if Py.truthy colorbar_title then colorbar_title
                         else bar_title (colorbar (coloraxis lay)))
                        true) |} |}
  end.

(** ** [create_cross_scatter_plot] *)

(** The dashed grey line [y = x] over the axis range. *)
Definition diagonal_trace (axis_range : Range) : Trace :=
  go_Scatter [axis_range.1; axis_range.2] [axis_range.1; axis_range.2] "lines"
    None (Some (mkLine 2 "grey" (Some "dash"))) "Diagonal (y=x)" None.

Definition create_cross_scatter_plot (df : DataFrame) (x_column y_column : string)
    (highlight_index : option Z) : result Figure :=
  xs ← getitem df x_column;
  let x_max := series_max xs in
  ys ← getitem df y_column;
  let y_max := series_max ys in
  let axis_max := Py.max x_max y_max in
  let axis_range : Range := (0, axis_max * 1.05)%float in
  fig ← px_scatter df x_column y_column Viridis None;
  let fig := add_trace fig (diagonal_trace axis_range) in
  fig ← match highlight_index with
        | Some i =>
            if in_bounds df i then
              xv ← iloc_cell df i x_column;
              yv ← iloc_cell df i y_column;
              Ok (add_trace fig (highlight_marker xv yv))
            else Ok fig
        | None => Ok fig
        end;
  x_title ← get_axis_title (Some x_column);
  y_title ← get_axis_title (Some y_column);
  let lay := layout fig in
  Ok {| data := data fig;
        layout :=
          {| height := Some 280%Z;
             margin := mkMargin (Some 10%Z) (Some 40%Z) (Some 10%Z) (Some 10%Z);
             title := title lay;
             title_x := Some 0.5%float;
             xaxis := mkAxis (Some axis_range) (Some x_title);
             yaxis := mkAxis (Some axis_range) (Some y_title);
             coloraxis :=
               mkColorAxis (colorscale (coloraxis lay)) (crange (coloraxis lay))
                 (mkColorBar (Some "")
                    (colorbar_horizontal (colorbar (coloraxis lay)))) |} |}.

(** ** The callbacks of [create_calloutpus] *)

(** [hoverData] of a graph: [None] when nothing is hovered, else a dict whose
    ["points"] entry lists the hovered points, each a dict that may carry
    ["pointIndex"]. *)
Record HoverPoint : Type := mkHoverPoint { pointIndex : option Z }.
Record HoverDict : Type := mkHoverDict { points : option (list HoverPoint) }.
Definition HoverData : Type := option HoverDict.

(** The test of every [if]/[elif] of the hover chain,
    [h and "points" in h and len(h["points"]) > 0 and "pointIndex" in
    h["points"][0]], together with the index [h["points"][0]["pointIndex"]]
    the branch reads when the test holds. *)
Definition hover_point_index (h : HoverData) : option Z :=
  match h with
  | Some {| points := Some (hovered_point :: _) |} => pointIndex hovered_point
  | _ => None
  end.

(** The body of every branch: keep the index when it is in bounds. *)
Definition checked_index (df : DataFrame) (hovered_index : Z) : option Z :=
  if in_bounds df hovered_index then Some hovered_index else None.

(** Lines 531-592: the [if]/[elif] chain over the five hover inputs. *)
Definition resolve_highlight_index (df : DataFrame)
    (map_hoverData upper_hoverData lower_hoverData cross_upper_hoverData
       cross_lower_hoverData : HoverData) : option Z :=
  match hover_point_index map_hoverData with
  | Some hovered_index => checked_index df hovered_index
  | None =>
  match hover_point_index upper_hoverData with
  | Some hovered_index => checked_index df hovered_index
  | None =>
  match hover_point_index lower_hoverData with
  | Some hovered_index => checked_index df hovered_index
  | None =>
  match hover_point_index cross_upper_hoverData with
  | Some hovered_index => checked_index df hovered_index
  | None =>
  match hover_point_index cross_lower_hoverData with
  | Some hovered_index => checked_index df hovered_index
  | None => None
  end end end end end.

(** [trace.name.startswith("Highlighted")]; a trace object always has the
    attribute [name], which is [None] when the trace carries no name. *)
Definition is_highlight_trace (t : Trace) : result bool :=
  match name t with
  | Some nm => Ok (Py.startswith nm "Highlighted")
  | None => Raise (AttributeError "startswith")
  end.

(** [[trace for trace in map_fig.data if not hasattr(trace, "name") or not
    trace.name.startswith("Highlighted")]] *)
Fixpoint strip_highlight_traces (ts : list Trace) : result (list Trace) :=
  match ts with
  | [] => Ok []
  | trace :: ts' =>
      h ← is_highlight_trace trace;
      kept ← strip_highlight_traces ts';
      Ok (if h : bool then kept else trace :: kept)
  end.

(** A control value that passes [if not v: return ...]. *)
Definition control_value (v : option string) : option string :=
  if Py.truthy v then v else None.

(** The five [Output]s the hover callback is registered with. *)
Definition hover_callback_outputs : list string :=
  ["upper-scatter"; "lower-scatter"; "cross-upper-scatter";
   "cross-lower-scatter"; "map-graph"].

(** The returned tuple is modelled as the list of its components. *)
Definition update_all_visualizations_with_highlight (df : DataFrame)
    (map_hoverData upper_hoverData lower_hoverData cross_upper_hoverData
       cross_lower_hoverData : HoverData)
    (y_axis_type x_axis_column main_dropdown : option string)
    (current_map_fig : option FigureDict) : result (list Figure) :=
  match control_value y_axis_type, control_value x_axis_column,
        control_value main_dropdown with
  | Some y_axis_type, Some x_axis_column, Some main_dropdown =>
      config ← match scatter_configs !! y_axis_type with
               | Some c => Ok c
               | None => Raise (KeyError y_axis_type)
               end;
      let upper_col := upper config in
      let lower_col := lower config in
      let highlight_index :=
        resolve_highlight_index df map_hoverData upper_hoverData
          lower_hoverData cross_upper_hoverData cross_lower_hoverData in
      '(x_range, y_range, color_range) ←
        calculate_consistent_ranges df upper_col lower_col x_axis_column;
      x_title ← get_axis_title (Some x_axis_column);
      y_title ← get_axis_title (Some upper_col);
      upper_fig ← create_scatter_plot df upper_col x_axis_column highlight_index
                    (Some x_range) (Some y_range) (Some color_range)
                    (Some x_title) (Some y_title);
      x_title ← get_axis_title (Some x_axis_column);
      y_title ← get_axis_title (Some lower_col);
      lower_fig ← create_scatter_plot df lower_col x_axis_column highlight_index
                    (Some x_range) (Some y_range) (Some color_range)
                    (Some x_title) (Some y_title);
      cross_upper_fig ← create_cross_scatter_plot df "legislator_rate"
                          "against_recall_rate" highlight_index;
      cross_lower_fig ← create_cross_scatter_plot df "legislator_vote"
                          "against_recall_vote" highlight_index;
      map_fig ←
        match current_map_fig ≫= fd_data with
        | Some traces =>
            lay ← match current_map_fig ≫= fd_layout with
                  | Some l => Ok l
                  | None => Raise (KeyError "layout")
                  end;
            kept ← strip_highlight_traces traces;
            let map_fig := {| data := kept; layout := lay |} in
            match highlight_index with
            | Some i =>
                highlighted_geom ← iloc (geometry df) i;
                Ok (add_traces map_fig (highlight_traces highlighted_geom))
            | None => Ok map_fig
            end
        | None =>
            colorbar_title ← get_axis_title (Some main_dropdown);
            create_map_plot df (Some main_dropdown) highlight_index
              (Some colorbar_title)
        end;
      Ok [upper_fig; lower_fig; cross_upper_fig; cross_lower_fig; map_fig]
  | _, _, _ => Ok [go_Figure; go_Figure; go_Figure; go_Figure]
  end.

(** [update_map], registered with the single output ["map-graph"]. *)
Definition update_map (df : DataFrame) (selected_column : option string)
  : result Figure :=
  colorbar_title ← get_axis_title selected_column;
  create_map_plot df selected_column None (Some colorbar_title).

(** [update_scatter], registered with the outputs ["upper-scatter"] and
    ["lower-scatter"]. *)
Definition update_scatter (df : DataFrame)
    (y_axis_type x_axis_column : option string) : result (list Figure) :=
  match control_value y_axis_type, control_value x_axis_column with
  | Some y_axis_type, Some x_axis_column =>
      config ← match scatter_configs !! y_axis_type with
               | Some c => Ok c
               | None => Raise (KeyError y_axis_type)
               end;
      let upper_col := upper config in
      let lower_col := lower config in
      '(x_range, y_range, color_range) ←
        calculate_consistent_ranges df upper_col lower_col x_axis_column;
      x_title ← get_axis_title (Some x_axis_column);
      y_title ← get_axis_title (Some upper_col);
      upper_fig ← create_scatter_plot df upper_col x_axis_column None
                    (Some x_range) (Some y_range) (Some color_range)
                    (Some x_title) (Some y_title);
      x_title ← get_axis_title (Some x_axis_column);
      y_title ← get_axis_title (Some lower_col);
      lower_fig ← create_scatter_plot df lower_col x_axis_column None
                    (Some x_range) (Some y_range) (Some color_range)
                    (Some x_title) (Some y_title);
      Ok [upper_fig; lower_fig]
  | _, _ => Ok [go_Figure; go_Figure]
  end.

(** ** The initial figures of [create_map_data_layout] *)

(** [create_initial_scatter_plots]: the pair for the default category and
    x-axis, returned as a tuple. *)
Definition create_initial_scatter_plots (df : DataFrame) : result (list Figure) :=
  config ← match scatter_configs !! "Support vote rate" with
           | Some c => Ok c
           | None => Raise (KeyError "Support vote rate")
           end;
  let upper_col := upper config in
  let lower_col := lower config in
  let x_axis := "legislator_total_voter_density" in
  '(x_range, y_range, color_range) ←
    calculate_consistent_ranges df upper_col lower_col x_axis;
  x_title ← get_axis_title (Some x_axis);
  y_title ← get_axis_title (Some upper_col);
  upper_fig ← create_scatter_plot df upper_col x_axis None
                (Some x_range) (Some y_range) (Some color_range)
                (Some x_title) (Some y_title);
  x_title ← get_axis_title (Some x_axis);
  y_title ← get_axis_title (Some lower_col);
  lower_fig ← create_scatter_plot df lower_col x_axis None
                (Some x_range) (Some y_range) (Some color_range)
                (Some x_title) (Some y_title);
  Ok [upper_fig; lower_fig].

(** [create_initial_cross_scatter_plots] *)
Definition create_initial_cross_scatter_plots (df : DataFrame)
  : result (list Figure) :=
  cross_upper_fig ← create_cross_scatter_plot df "legislator_rate"
                      "against_recall_rate" None;
  cross_lower_fig ← create_cross_scatter_plot df "legislator_vote"
                      "against_recall_vote" None;
  Ok [cross_upper_fig; cross_lower_fig].

(** A figure returned to the browser comes back, as the [State] of the
    graph, as a dict with both keys. *)
Definition figure_state (fig : Figure) : FigureDict :=
  mkFigureDict (Some (data fig)) (Some (layout fig)).

(** Lines 625-684 of the hover callback, the map block, as a function of
    the resolved highlight index. *)
Definition hover_map_block (df : DataFrame) (highlight_index : option Z)
    (main_dropdown : string) (current_map_fig : option FigureDict)
  : result Figure :=
  match current_map_fig ≫= fd_data with
  | Some traces =>
      lay ← match current_map_fig ≫= fd_layout with
            | Some l => Ok l
            | None => Raise (KeyError "layout")
            end;
      kept ← strip_highlight_traces traces;
      let map_fig := {| data := kept; layout := lay |} in
      match highlight_index with
      | Some i =>
          highlighted_geom ← iloc (geometry df) i;
          Ok (add_traces map_fig (highlight_traces highlighted_geom))
      | None => Ok map_fig
      end
  | None =>
      colorbar_title ← get_axis_title (Some main_dropdown);
      create_map_plot df (Some main_dropdown) highlight_index
        (Some colorbar_title)
  end.

(** ** Observations on rendered figures and the rules as the specification words them *)

(** A trace counts as a highlight overlay when its name starts with
    ["Highlighted"], the marker the hover callback itself strips by. *)
Definition has_highlight_name (t : Trace) : bool :=
  match name t with
  | Some nm => Py.startswith nm "Highlighted"
  | None => false
  end.

Definition highlight_overlays (fig : Figure) : list Trace :=
  List.filter has_highlight_name (data fig).

(** [with_highlight] adds exactly [overlays] to what [without] renders:
    both renders succeed, the one without highlight carries no highlight
    overlay, and the other one is the same list of traces followed by
    [overlays], which are all of its highlight overlays. *)
Definition adds_overlays (without with_highlight : result Figure)
    (overlays : list Trace) : Prop :=
  ∃ fig0 fig,
    without = Ok fig0 ∧ with_highlight = Ok fig ∧
    highlight_overlays fig0 = [] ∧
    data fig = data fig0 ++ overlays ∧
    highlight_overlays fig = overlays.

(** The marker drawn by the scatter renders for a highlight index. *)
Definition scatter_overlay (df : DataFrame) (xs ys : list float)
    (highlight_index : option Z) : list Trace :=
  match highlight_index with
  | Some i =>
      if in_bounds df i then
        match xs !! Z.to_nat i, ys !! Z.to_nat i with
        | Some xv, Some yv => [highlight_marker xv yv]
        | _, _ => []
        end
      else []
  | None => []
  end.

(** The outlines drawn by the map render for a highlight index. *)
Definition map_overlay (df : DataFrame) (highlight_index : option Z)
  : list Trace :=
  match highlight_index with
  | Some i =>
      if in_bounds df i then
        match geometry df !! Z.to_nat i with
        | Some g => highlight_traces g
        | None => []
        end
      else []
  | None => []
  end.

(** Number of polygon parts of a geometry. *)
Definition polygon_parts (g : Geometry) : nat :=
  match g with
  | GPolygon _ => 1
  | GMultiPolygon geoms => length geoms
  | GOther => 0
  end.

(** The polygon parts of a geometry, in order. *)
Definition geometry_parts (g : Geometry) : list Polygon :=
  match g with
  | GPolygon p => [p]
  | GMultiPolygon geoms => geoms
  | GOther => []
  end.

(** The columns every frame of the dashboard has besides the numeric ones;
    they hold strings and geometries and are not part of [columns]. *)
Definition non_numeric_columns : list string :=
  ["area_name"; "region"; "geometry"].

(** The frame has no column of that name at all. *)
Definition lacks_column (df : DataFrame) (col : string) : Prop :=
  columns df !! col = None ∧ col ∉ non_numeric_columns.

(** The data model of the specification: every row's geometry is a polygon
    or a multi-polygon boundary, so it has at least one polygon part. *)
Definition polygonal (df : DataFrame) : Prop :=
  Forall (λ g, (0 < polygon_parts g)%nat) (geometry df).

(** The specification's rule for the highlight: the first event, in priority
    order, that is present with a valid point index. *)
Definition first_valid_hover_index (df : DataFrame) (events : list HoverData)
  : option Z :=
  head (omap (λ h, hover_point_index h ≫= checked_index df) events).

(** The first event, in priority order, that is present at all. *)
Definition first_present_hover_index (events : list HoverData) : option Z :=
  head (omap hover_point_index events).

(** The specification's x-range: floor 0, 2% above the observed maximum. *)
Definition spec_x_range (x_max : float) : Range := (0, x_max * 1.02)%float.

(** ** Sample data *)

Definition df3 : DataFrame :=
  {| columns := {[ "legislator_rate" := [0.4; 0.6; 0.8]%float;
                   "against_recall_rate" := [0.3; 0.5; 0.7]%float;
                   "legislator_vote" := [120; 80; 100]%float;
                   "against_recall_vote" := [90; 110; 70]%float;
                   "legislator_total_voter_density" := [100; 50; 25]%float ]};
     area_name := ["a"; "b"; "c"];
     region := ["r"; "r"; "s"];
     geometry :=
       [ GPolygon (mkPolygon [(0, 0); (1, 0); (1, 1); (0, 0)]%float);
         GMultiPolygon [ mkPolygon [(2, 2); (3, 2); (3, 3); (2, 2)]%float;
                         mkPolygon [(4, 4); (5, 4); (5, 5); (4, 4)]%float ];
         GPolygon (mkPolygon [(6, 6); (7, 6); (7, 7); (6, 6)]%float) ] |}.


(** A hover event on point [i]. *)
Definition hover_at (i : Z) : HoverData :=
  Some (mkHoverDict (Some [mkHoverPoint (Some i)])).

(** The sample dataset without its rows: every column is there and empty. *)
Definition df_no_rows : DataFrame :=
  {| columns := {[ "legislator_rate" := []; "against_recall_rate" := [];
                   "legislator_vote" := []; "against_recall_vote" := [];
                   "legislator_total_voter_density" := [] ]};
     area_name := []; region := []; geometry := [] |}.

(** A trace that carries no name. *)
Definition unnamed_trace : Trace :=
  {| ttype := Scattermapbox; name := None; trace_x := []; trace_y := [];
     lon := [121.6%float]; lat := [23.9%float]; geojson := []; locations := [];
     z := []; color := []; hovertext := []; customdata := [];
     mode := Some "markers"; marker := None; line := None;
     fill := None; fillcolor := None; showlegend := None; hoverinfo := None |}.

(** A map figure as the browser returns it after an earlier highlight. *)
Definition prior_map_fig : FigureDict :=
  mkFigureDict
    (Some [ go_Scattermapbox [] [] "base"; go_Scattermapbox [1%float] [2%float] "Highlighted_7";
            go_Scattermapbox [] [] "Highlighted"; go_Scattermapbox [] [] "roads" ])
    (Some empty_layout).

(** * Properties *)

(** ** Basic equations *)

Lemma bind_Ok {A B} (a : A) (k : A → result B) : (Ok a ≫= k) = k a.
Proof. reflexivity. Qed.

Lemma getitem_Some df col s : columns df !! col = Some s → getitem df col = Ok s.
Proof. unfold getitem. by intros ->. Qed.

Lemma px_column_Some df col s :
  columns df !! col = Some s → px_column df col = Ok s.
Proof. unfold px_column. by intros ->. Qed.

Lemma get_axis_title_Some c : ∃ t, get_axis_title (Some c) = Ok t.
Proof. unfold get_axis_title. eauto. Qed.

Lemma wf_df3 : wf_df df3.
Proof. unfold wf_df. apply (bool_decide_unpack _). by vm_compute. Qed.

Lemma polygonal_df3 : polygonal df3.
Proof. unfold polygonal. repeat constructor. Qed.

(** The ranges returned when the three selected columns exist. *)
Lemma calculate_consistent_ranges_eq df upper_col lower_col x_axis_column xs us ls :
  columns df !! x_axis_column = Some xs →
  columns df !! upper_col = Some us →
  columns df !! lower_col = Some ls →
  calculate_consistent_ranges df upper_col lower_col x_axis_column =
    let x_range := ((- series_max xs) * 0.02, series_max xs * 1.02)%float in
    let shared : Range :=
      if is_rate upper_col && is_rate lower_col then (0, 1.05)%float
      else (0, Py.max (series_max us) (series_max ls) * 1.05)%float in
    Ok (x_range, shared, shared).
Proof.
  intros Hx Hu Hl. unfold calculate_consistent_ranges.
  rewrite (getitem_Some _ _ _ Hx), bind_Ok.
  destruct (is_rate upper_col && is_rate lower_col); [done|].
  by rewrite (getitem_Some _ _ _ Hu), (getitem_Some _ _ _ Hl).
Qed.

(** ** Resolving the highlight index *)

(** The [if]/[elif] chain stops at the first event that is present. *)
Lemma resolve_highlight_index_eq df m u l cu cl :
  resolve_highlight_index df m u l cu cl =
    first_present_hover_index [m; u; l; cu; cl] ≫= checked_index df.
Proof.
  unfold resolve_highlight_index, first_present_hover_index. cbn [omap list_omap].
  destruct (hover_point_index m); [done|].
  destruct (hover_point_index u); [done|].
  destruct (hover_point_index l); [done|].
  destruct (hover_point_index cu); [done|].
  by destruct (hover_point_index cl).
Qed.

(** C1, as the code has it: the resolved highlight index is the point index
    of the first hover event that is present, in the order map, upper
    scatter, lower scatter, cross upper scatter, cross lower scatter, when
    that index is within the row bounds, and no highlight otherwise; events
    after the first present one are not consulted. *)
Theorem resolve_highlight_index_first_present df m u l cu cl :
  resolve_highlight_index df m u l cu cl =
    first_present_hover_index [m; u; l; cu; cl] ≫= checked_index df.
Proof.
  unfold resolve_highlight_index, first_present_hover_index, hover_point_index.
  cbn [omap list_omap].
  destruct m as [[[[|[[i|]] ?]|]]|]; cbn; try reflexivity;
    destruct u as [[[[|[[j|]] ?]|]]|]; cbn; try reflexivity;
    destruct l as [[[[|[[k|]] ?]|]]|]; cbn; try reflexivity;
    destruct cu as [[[[|[[n|]] ?]|]]|]; cbn; try reflexivity;
    destruct cl as [[[[|[[o|]] ?]|]]|]; cbn; reflexivity.
Qed.

(** C1, as stated, fails: with three rows, a map event on point 5 and an
    upper-scatter event on point 1, the rule of the specification picks 1
    and the callback resolves to no highlight. *)
Lemma resolve_highlight_index_not_first_valid :
  resolve_highlight_index df3 (hover_at 5) (hover_at 1) None None None = None ∧
  first_valid_hover_index df3 [hover_at 5; hover_at 1; None; None; None] = Some 1%Z.
Proof. split; reflexivity. Qed.

(** Where the first present event is in bounds the two rules agree. *)
Lemma resolve_highlight_index_first_valid df m u l cu cl i :
  first_present_hover_index [m; u; l; cu; cl] = Some i →
  in_bounds df i = true →
  resolve_highlight_index df m u l cu cl =
    first_valid_hover_index df [m; u; l; cu; cl].
Proof.
  rewrite resolve_highlight_index_eq.
  unfold first_present_hover_index, first_valid_hover_index.
  cbn [omap list_omap]. intros Hp Hb.
  assert (Hc : checked_index df i = Some i) by (unfold checked_index; by rewrite Hb).
  destruct (hover_point_index m) as [j|]; simplify_eq/=; [by rewrite Hc|].
  destruct (hover_point_index u) as [j|]; simplify_eq/=; [by rewrite Hc|].
  destruct (hover_point_index l) as [j|]; simplify_eq/=; [by rewrite Hc|].
  destruct (hover_point_index cu) as [j|]; simplify_eq/=; [by rewrite Hc|].
  destruct (hover_point_index cl) as [j|]; simplify_eq/=. by rewrite Hc.
Qed.

(** The resolved index is always a row of the dataset. *)
Lemma resolve_highlight_index_in_bounds df m u l cu cl i :
  resolve_highlight_index df m u l cu cl = Some i → in_bounds df i = true.
Proof.
  rewrite resolve_highlight_index_eq.
  destruct (first_present_hover_index _) as [j|]; [|done]. cbn.
  unfold checked_index. destruct (in_bounds df j) eqn:E; naive_solver.
Qed.

(** ** Shared ranges *)

(** C3, as the code has it: the x-range runs from minus 2% of the observed
    column maximum to the maximum padded by 2%. *)
Theorem calculate_consistent_ranges_x_range df upper_col lower_col x_axis_column xs us ls :
  columns df !! x_axis_column = Some xs →
  columns df !! upper_col = Some us →
  columns df !! lower_col = Some ls →
  ∃ y_range color_range,
    calculate_consistent_ranges df upper_col lower_col x_axis_column =
      Ok (((- series_max xs) * 0.02, series_max xs * 1.02)%float,
          y_range, color_range).
Proof.
  intros Hx Hu Hl. rewrite (calculate_consistent_ranges_eq _ _ _ _ _ _ _ Hx Hu Hl).
  cbv zeta. eauto.
Qed.

Lemma calculate_consistent_ranges_x_range_witness :
  ∃ y_range color_range,
    calculate_consistent_ranges df3 "legislator_vote" "against_recall_vote"
      "legislator_total_voter_density" =
      Ok (((- series_max [100; 50; 25]) * 0.02,
           series_max [100; 50; 25] * 1.02)%float, y_range, color_range).
Proof.
  apply (calculate_consistent_ranges_x_range df3 "legislator_vote"
           "against_recall_vote" "legislator_total_voter_density"
           [100; 50; 25]%float [120; 80; 100]%float [90; 110; 70]%float);
    reflexivity.
Defined.

(** C3, as stated, fails: for a density column with maximum 100 the lower
    endpoint of the x-range is -2, not the floor 0 of the specification. *)
Lemma calculate_consistent_ranges_x_range_not_floor_0 :
  calculate_consistent_ranges df3 "legislator_rate" "against_recall_rate"
    "legislator_total_voter_density" =
    Ok ((-2, 102)%float, (0, 1.05)%float, (0, 1.05)%float) ∧
  (-2, 102)%float ≠ spec_x_range (series_max [100; 50; 25]%float).
Proof.
  split; [reflexivity|]. intros H.
  apply (f_equal (λ r : Range, PrimFloat.ltb r.1 0)) in H.
  vm_compute in H. discriminate.
Qed.

(** C4: when both column names contain "rate" the shared y-range and colour
    range are [0, 1.05] whatever the data; otherwise both are
    [0, max(upper max, lower max) * 1.05]. *)
Theorem calculate_consistent_ranges_shared_range df upper_col lower_col x_axis_column xs :
  columns df !! x_axis_column = Some xs →
  (is_rate upper_col && is_rate lower_col = true →
   ∃ x_range,
     calculate_consistent_ranges df upper_col lower_col x_axis_column =
       Ok (x_range, (0, 1.05)%float, (0, 1.05)%float)) ∧
  (is_rate upper_col && is_rate lower_col = false →
   ∀ us ls,
     columns df !! upper_col = Some us →
     columns df !! lower_col = Some ls →
     ∃ x_range,
       calculate_consistent_ranges df upper_col lower_col x_axis_column =
         Ok (x_range,
             (0, Py.max (series_max us) (series_max ls) * 1.05)%float,
             (0, Py.max (series_max us) (series_max ls) * 1.05)%float)).
Proof.
  intros Hx. unfold calculate_consistent_ranges.
  rewrite (getitem_Some _ _ _ Hx), bind_Ok. split.
  - intros ->. eauto.
  - intros -> us ls Hu Hl.
    rewrite (getitem_Some _ _ _ Hu), (getitem_Some _ _ _ Hl). cbn. eauto.
Qed.

Lemma calculate_consistent_ranges_shared_range_witness :
  (is_rate "legislator_rate" && is_rate "against_recall_rate" = true →
   ∃ x_range,
     calculate_consistent_ranges df3 "legislator_rate" "against_recall_rate"
       "legislator_total_voter_density" =
       Ok (x_range, (0, 1.05)%float, (0, 1.05)%float)) ∧
  (is_rate "legislator_rate" && is_rate "against_recall_rate" = false →
   ∀ us ls,
     columns df3 !! "legislator_rate" = Some us →
     columns df3 !! "against_recall_rate" = Some ls →
     ∃ x_range,
       calculate_consistent_ranges df3 "legislator_rate" "against_recall_rate"
         "legislator_total_voter_density" =
         Ok (x_range,
             (0, Py.max (series_max us) (series_max ls) * 1.05)%float,
             (0, Py.max (series_max us) (series_max ls) * 1.05)%float)).
Proof.
  apply (calculate_consistent_ranges_shared_range df3 "legislator_rate"
           "against_recall_rate" "legislator_total_voter_density"
           [100; 50; 25]%float).
  reflexivity.
Defined.

(** ** Rendering *)

Lemma in_bounds_spec df i : in_bounds df i = true ↔ (0 ≤ i < len df)%Z.
Proof. unfold in_bounds. rewrite andb_true_iff, Z.leb_le, Z.ltb_lt. tauto. Qed.

Lemma iloc_Some {A} (l : list A) i a :
  (0 ≤ i)%Z → l !! Z.to_nat i = Some a → iloc l i = Ok a.
Proof.
  intros Hi Hl. unfold iloc.
  pose proof (lookup_lt_Some _ _ _ Hl) as Hlt.
  destruct (Z.ltb_spec i 0) as [|_]; [lia|].
  destruct (Z.leb_spec 0 i) as [_|]; [|lia].
  destruct (Z.ltb_spec i (Z.of_nat (length l))) as [_|]; [|lia].
  cbn. by rewrite Hl.
Qed.

Lemma in_bounds_geometry df i :
  in_bounds df i = true → ∃ g, geometry df !! Z.to_nat i = Some g.
Proof.
  rewrite in_bounds_spec. unfold len. intros [? ?].
  apply lookup_lt_is_Some_2. lia.
Qed.

Lemma in_bounds_cell df i col s :
  wf_df df → columns df !! col = Some s → in_bounds df i = true →
  ∃ v, s !! Z.to_nat i = Some v.
Proof.
  intros Hwf Hc. rewrite in_bounds_spec. unfold len. intros [? ?].
  apply lookup_lt_is_Some_2. rewrite (Hwf _ _ Hc). lia.
Qed.

Lemma iloc_cell_Some df i col s v :
  columns df !! col = Some s → (0 ≤ i)%Z → s !! Z.to_nat i = Some v →
  iloc_cell df i col = Ok v.
Proof.
  intros Hc Hi Hv. unfold iloc_cell.
  rewrite (getitem_Some _ _ _ Hc), bind_Ok. by apply iloc_Some.
Qed.

Lemma data_add_traces fig ts : data (add_traces fig ts) = data fig ++ ts.
Proof.
  unfold add_traces. revert fig.
  induction ts as [|t ts IH]; intros fig; cbn.
  - by rewrite app_nil_r.
  - rewrite IH. cbn. by rewrite <- app_assoc.
Qed.

Lemma layout_add_traces fig ts : layout (add_traces fig ts) = layout fig.
Proof.
  unfold add_traces. revert fig.
  induction ts as [|t ts IH]; intros fig; cbn; [done|]. by rewrite IH.
Qed.

Lemma add_traces_eq fig ts :
  add_traces fig ts = {| data := data fig ++ ts; layout := layout fig |}.
Proof.
  rewrite <- (data_add_traces fig ts), <- (layout_add_traces fig ts).
  by destruct (add_traces fig ts).
Qed.

(** The highlight step shared by the two scatter renders. *)
Lemma scatter_highlight_step df x_column y_column xs ys fig highlight_index :
  wf_df df →
  columns df !! x_column = Some xs →
  columns df !! y_column = Some ys →
  match highlight_index with
  | Some i =>
      if in_bounds df i then
        xv ← iloc_cell df i x_column;
        yv ← iloc_cell df i y_column;
        Ok (add_trace fig (highlight_marker xv yv))
      else Ok fig
  | None => Ok fig
  end =
  Ok {| data := data fig ++ scatter_overlay df xs ys highlight_index;
        layout := layout fig |}.
Proof.
  intros Hwf Hx Hy. unfold scatter_overlay.
  destruct highlight_index as [i|]; [|by rewrite app_nil_r; destruct fig].
  destruct (in_bounds df i) eqn:Hb; [|by rewrite app_nil_r; destruct fig].
  destruct (in_bounds_cell _ _ _ _ Hwf Hx Hb) as [xv Hxv].
  destruct (in_bounds_cell _ _ _ _ Hwf Hy Hb) as [yv Hyv].
  apply in_bounds_spec in Hb as [Hi _].
  rewrite (iloc_cell_Some _ _ _ _ _ Hx Hi Hxv), bind_Ok.
  rewrite (iloc_cell_Some _ _ _ _ _ Hy Hi Hyv), bind_Ok.
  by rewrite Hxv, Hyv.
Qed.

(** What [create_scatter_plot] returns on a well-formed dataset that has both
    columns: the points of plotly express followed by the overlay, under a
    layout that does not depend on the highlight. *)
Lemma create_scatter_plot_eq df y_column x_column x_range y_range color_range
    x_title y_title xs ys :
  wf_df df →
  columns df !! x_column = Some xs →
  columns df !! y_column = Some ys →
  ∃ lay, ∀ highlight_index,
    create_scatter_plot df y_column x_column highlight_index x_range y_range
      color_range x_title y_title =
    Ok {| data := px_scatter_trace df xs ys ::
                  scatter_overlay df xs ys highlight_index;
          layout := lay |}.
Proof.
  intros Hwf Hx Hy. unfold create_scatter_plot, px_scatter.
  rewrite (px_column_Some _ _ _ Hx), (px_column_Some _ _ _ Hy).
  rewrite !(getitem_Some _ _ _ Hx), !(getitem_Some _ _ _ Hy).
  destruct (is_rate y_column), color_range, y_range, x_range; cbn;
    eexists; intros hl;
    rewrite (scatter_highlight_step _ _ _ _ _ _ _ Hwf Hx Hy); cbn;
    reflexivity.
Qed.

(** What [create_cross_scatter_plot] returns under the same conditions: the
    points, the diagonal over the shared axis range, then the overlay. *)
Lemma create_cross_scatter_plot_eq df x_column y_column xs ys :
  wf_df df →
  columns df !! x_column = Some xs →
  columns df !! y_column = Some ys →
  let axis_range : Range :=
    (0, Py.max (series_max xs) (series_max ys) * 1.05)%float in
  ∃ lay,
    range (xaxis lay) = Some axis_range ∧
    range (yaxis lay) = Some axis_range ∧
    colorscale (coloraxis lay) = Some Viridis ∧
    crange (coloraxis lay) = None ∧
    ∀ highlight_index,
      create_cross_scatter_plot df x_column y_column highlight_index =
      Ok {| data := px_scatter_trace df xs ys :: diagonal_trace axis_range ::
                    scatter_overlay df xs ys highlight_index;
            layout := lay |}.
Proof.
  intros Hwf Hx Hy r. unfold create_cross_scatter_plot, px_scatter.
  rewrite (px_column_Some _ _ _ Hx), (px_column_Some _ _ _ Hy).
  rewrite (getitem_Some _ _ _ Hx), (getitem_Some _ _ _ Hy).
  destruct (get_axis_title_Some x_column) as [tx ->].
  destruct (get_axis_title_Some y_column) as [ty ->].
  cbn. fold r.
  eexists. split_and!; last first.
  - intros hl. rewrite (scatter_highlight_step _ _ _ _ _ _ _ Hwf Hx Hy).
    cbn. reflexivity.
  - reflexivity.
  - reflexivity.
  - reflexivity.
  - reflexivity.
Qed.

(** What [create_map_plot] returns for a chosen column of the dataset: the
    choropleth followed by the outlines of the highlighted geometry. *)
Lemma create_map_plot_eq df col colorbar_title zs :
  col ≠ "" →
  columns df !! col = Some zs →
  ∃ lay, ∀ highlight_index,
    create_map_plot df (Some col) highlight_index colorbar_title =
    Ok {| data := px_choropleth_trace df zs :: map_overlay df highlight_index;
          layout := lay |}.
Proof.
  intros Hne Hc. unfold create_map_plot, px_choropleth_mapbox.
  assert (Py.truthy (Some col) = true) as -> by (by destruct col).
  rewrite (px_column_Some _ _ _ Hc), (getitem_Some _ _ _ Hc).
  assert (Hstep : ∀ fig hl,
    match hl with
    | Some i =>
        if in_bounds df i then
          highlighted_geom ← iloc (geometry df) i;
          Ok (add_traces fig (highlight_traces highlighted_geom))
        else Ok fig
    | None => Ok fig
    end = Ok {| data := data fig ++ map_overlay df hl; layout := layout fig |}).
  { intros fig [i|]; cbn; [|by rewrite app_nil_r; destruct fig].
    destruct (in_bounds df i) eqn:Hb; [|by rewrite app_nil_r; destruct fig].
    destruct (in_bounds_geometry _ _ Hb) as [g Hg]. rewrite Hg.
    apply in_bounds_spec in Hb as [Hi _].
    by rewrite (iloc_Some _ _ _ Hi Hg), bind_Ok, add_traces_eq. }
  destruct (is_rate col); cbn; eexists; intros hl; rewrite Hstep; cbn;
    reflexivity.
Qed.

(** Names: the traces of plotly express and the diagonal are no highlight
    overlays, the marker and the outlines are. *)
Lemma has_highlight_name_outline polygon suffix :
  has_highlight_name (outline_trace polygon ("Highlighted_" +:+ suffix)) = true.
Proof. unfold has_highlight_name, Py.startswith. cbn. by destruct suffix. Qed.

Lemma highlight_traces_named g :
  Forall (λ t, has_highlight_name t = true) (highlight_traces g).
Proof.
  destruct g as [p|geoms|]; cbn.
  - repeat constructor.
  - apply Forall_lookup_2. intros i t. rewrite list_lookup_imap.
    destruct (geoms !! i); cbn; [|done]. intros [= <-].
    apply has_highlight_name_outline.
  - constructor.
Qed.

Lemma highlight_traces_length g :
  length (highlight_traces g) = polygon_parts g.
Proof. destruct g; cbn; [done| |done]. by rewrite length_imap. Qed.

Lemma imap_outline_coordinates (nm : nat → string) geoms :
  (λ t, (lon t, lat t)) <$> imap (λ i polygon, outline_trace polygon (nm i)) geoms =
  (λ p, ((exterior p).*1, (exterior p).*2)) <$> geoms.
Proof.
  revert nm. induction geoms as [|p geoms IH]; intros nm; [done|].
  cbn [imap fmap list_fmap]. f_equal. apply (IH (nm ∘ S)).
Qed.

(** Every outline follows the exterior ring of its polygon part. *)
Lemma highlight_traces_coordinates g :
  (λ t, (lon t, lat t)) <$> highlight_traces g =
  (λ p, ((exterior p).*1, (exterior p).*2)) <$> geometry_parts g.
Proof.
  destruct g as [p|geoms|]; [done| |done].
  apply (imap_outline_coordinates (λ i, "Highlighted_" +:+ pretty i)).
Qed.

Lemma highlight_traces_nonempty g :
  (0 < polygon_parts g)%nat → highlight_traces g ≠ [].
Proof.
  rewrite <- highlight_traces_length. destruct (highlight_traces g); cbn; [lia|done].
Qed.

Lemma filter_all_true {A} (f : A → bool) l :
  Forall (λ a, f a = true) l → List.filter f l = l.
Proof. induction 1 as [|a l Ha _ IH]; cbn; [done|]. by rewrite Ha, IH. Qed.

Lemma scatter_overlay_named df xs ys hl :
  Forall (λ t, has_highlight_name t = true) (scatter_overlay df xs ys hl).
Proof.
  unfold scatter_overlay.
  destruct hl as [i|]; [|constructor].
  destruct (in_bounds df i); [|constructor].
  destruct (xs !! Z.to_nat i), (ys !! Z.to_nat i); repeat constructor.
Qed.

Lemma map_overlay_named df hl :
  Forall (λ t, has_highlight_name t = true) (map_overlay df hl).
Proof.
  unfold map_overlay.
  destruct hl as [i|]; [|constructor].
  destruct (in_bounds df i); [|constructor].
  destruct (geometry df !! Z.to_nat i); [apply highlight_traces_named|constructor].
Qed.

Lemma adds_overlays_intro base lay lay' overlays :
  List.filter has_highlight_name base = [] →
  Forall (λ t, has_highlight_name t = true) overlays →
  adds_overlays (Ok {| data := base; layout := lay |})
    (Ok {| data := base ++ overlays; layout := lay' |}) overlays.
Proof.
  intros Hbase Hov. do 2 eexists. split_and!; try reflexivity.
  - exact Hbase.
  - unfold highlight_overlays. cbn [data].
    by rewrite List.filter_app, Hbase, (filter_all_true _ _ Hov).
Qed.

(** ** Highlight overlays *)

(** C5, as the code has it: for a valid row index [i], a scatter render
    and a cross scatter render with highlight [i] add exactly one highlight
    overlay, a marker named "Highlighted" whose x and y are row [i]'s cells;
    the map render adds one outline per polygon part of row [i]'s geometry
    (one for a polygon, several for a multi-polygon), each with the
    longitudes and latitudes of that part's exterior ring; a render without
    highlight carries no highlight overlay.  So the overlays of a rendered
    output belong to one row. *)
Theorem render_highlight_overlays df i y_column x_column xs ys
    x_range y_range color_range x_title y_title selected_column zs
    colorbar_title :
  wf_df df →
  in_bounds df i = true →
  columns df !! x_column = Some xs →
  columns df !! y_column = Some ys →
  selected_column ≠ "" →
  columns df !! selected_column = Some zs →
  ∃ xv yv g marker outlines,
    xs !! Z.to_nat i = Some xv ∧ ys !! Z.to_nat i = Some yv ∧
    geometry df !! Z.to_nat i = Some g ∧
    name marker = Some "Highlighted" ∧
    trace_x marker = [xv] ∧ trace_y marker = [yv] ∧
    adds_overlays
      (create_scatter_plot df y_column x_column None x_range y_range
         color_range x_title y_title)
      (create_scatter_plot df y_column x_column (Some i) x_range y_range
         color_range x_title y_title)
      [marker] ∧
    adds_overlays
      (create_cross_scatter_plot df x_column y_column None)
      (create_cross_scatter_plot df x_column y_column (Some i))
      [marker] ∧
    adds_overlays
      (create_map_plot df (Some selected_column) None colorbar_title)
      (create_map_plot df (Some selected_column) (Some i) colorbar_title)
      outlines ∧
    (λ t, (lon t, lat t)) <$> outlines =
      (λ p, ((exterior p).*1, (exterior p).*2)) <$> geometry_parts g ∧
    length outlines = polygon_parts g.
Proof.
  intros Hwf Hb Hx Hy Hne Hz.
  destruct (in_bounds_cell _ _ _ _ Hwf Hx Hb) as [xv Hxv].
  destruct (in_bounds_cell _ _ _ _ Hwf Hy Hb) as [yv Hyv].
  destruct (in_bounds_geometry _ _ Hb) as [g Hg].
  exists xv, yv, g, (highlight_marker xv yv), (highlight_traces g).
  split_and!; try done.
  - destruct (create_scatter_plot_eq df y_column x_column x_range y_range
                color_range x_title y_title xs ys Hwf Hx Hy) as [lay E].
    rewrite (E None), (E (Some i)). unfold scatter_overlay.
    rewrite Hb, Hxv, Hyv.
    apply (adds_overlays_intro [_]); [done|repeat constructor].
  - destruct (create_cross_scatter_plot_eq df x_column y_column xs ys Hwf Hx Hy)
      as (lay & _ & _ & _ & _ & E).
    rewrite (E None), (E (Some i)). unfold scatter_overlay.
    rewrite Hb, Hxv, Hyv.
    apply (adds_overlays_intro [_; _]); [done|repeat constructor].
  - destruct (create_map_plot_eq df selected_column colorbar_title zs Hne Hz)
      as [lay E].
    rewrite (E None), (E (Some i)). unfold map_overlay. rewrite Hb, Hg.
    apply (adds_overlays_intro [_]); [done|apply highlight_traces_named].
  - apply highlight_traces_coordinates.
  - apply highlight_traces_length.
Qed.

Lemma render_highlight_overlays_witness :
  ∃ xv yv g marker outlines,
    [100; 50; 25]%float !! Z.to_nat 1 = Some xv ∧
    [0.4; 0.6; 0.8]%float !! Z.to_nat 1 = Some yv ∧
    geometry df3 !! Z.to_nat 1 = Some g ∧
    name marker = Some "Highlighted" ∧
    trace_x marker = [xv] ∧ trace_y marker = [yv] ∧
    adds_overlays
      (create_scatter_plot df3 "legislator_rate"
         "legislator_total_voter_density" None None None None None None)
      (create_scatter_plot df3 "legislator_rate"
         "legislator_total_voter_density" (Some 1%Z) None None None None None)
      [marker] ∧
    adds_overlays
      (create_cross_scatter_plot df3 "legislator_total_voter_density"
         "legislator_rate" None)
      (create_cross_scatter_plot df3 "legislator_total_voter_density"
         "legislator_rate" (Some 1%Z))
      [marker] ∧
    adds_overlays
      (create_map_plot df3 (Some "legislator_vote") None None)
      (create_map_plot df3 (Some "legislator_vote") (Some 1%Z) None)
      outlines ∧
    (λ t, (lon t, lat t)) <$> outlines =
      (λ p, ((exterior p).*1, (exterior p).*2)) <$> geometry_parts g ∧
    length outlines = polygon_parts g.
Proof.
  apply (render_highlight_overlays df3 1 "legislator_rate"
           "legislator_total_voter_density" [100; 50; 25]%float
           [0.4; 0.6; 0.8]%float None None None None None "legislator_vote"
           [120; 80; 100]%float None).
  - exact wf_df3.
  - reflexivity.
  - reflexivity.
  - reflexivity.
  - discriminate.
  - reflexivity.
Defined.

(** C5, as stated, fails for the map: row 1 of the sample dataset is a
    multi-polygon with two parts, and the map rendered with the valid
    highlight index 1 carries two highlight overlays, named "Highlighted_0"
    and "Highlighted_1", not exactly one. *)
Lemma create_map_plot_multipolygon_two_overlays :
  in_bounds df3 1 = true ∧
  (fig ← create_map_plot df3 (Some "legislator_rate") (Some 1%Z) None;
   Ok (name <$> highlight_overlays fig)) =
    Ok [Some "Highlighted_0"; Some "Highlighted_1"] ∧
  (fig ← create_map_plot df3 (Some "legislator_rate") (Some 1%Z) None;
   Ok (length (highlight_overlays fig))) = Ok 2%nat ∧
  (fig ← create_map_plot df3 (Some "legislator_rate") (Some 1%Z) None;
   Ok (length (highlight_overlays fig))) ≠ Ok 1%nat.
Proof. split_and!; [reflexivity|by vm_compute..]. Qed.

(** C6: a highlight index below 0 or at or above the row count makes every
    render return exactly what it returns without highlight, and the render
    does not raise on a dataset that has the columns. *)
Theorem render_out_of_bounds_as_no_highlight df i :
  wf_df df →
  (i < 0 ∨ len df ≤ i)%Z →
  (∀ y_column x_column x_range y_range color_range x_title y_title,
     create_scatter_plot df y_column x_column (Some i) x_range y_range
       color_range x_title y_title =
     create_scatter_plot df y_column x_column None x_range y_range
       color_range x_title y_title) ∧
  (∀ x_column y_column,
     create_cross_scatter_plot df x_column y_column (Some i) =
     create_cross_scatter_plot df x_column y_column None) ∧
  (∀ selected_column colorbar_title,
     create_map_plot df selected_column (Some i) colorbar_title =
     create_map_plot df selected_column None colorbar_title) ∧
  (∀ y_column x_column xs ys,
     columns df !! x_column = Some xs →
     columns df !! y_column = Some ys →
     (∀ x_range y_range color_range x_title y_title,
        is_Ok (create_scatter_plot df y_column x_column (Some i) x_range
                 y_range color_range x_title y_title)) ∧
     is_Ok (create_cross_scatter_plot df x_column y_column (Some i)) ∧
     ∀ colorbar_title,
       is_Ok (create_map_plot df (Some y_column) (Some i) colorbar_title)).
Proof.
  intros Hwf Hi.
  assert (Hb : in_bounds df i = false).
  { destruct (in_bounds df i) eqn:E; [|done]. apply in_bounds_spec in E. lia. }
  split_and!.
  - intros. unfold create_scatter_plot. by rewrite Hb.
  - intros. unfold create_cross_scatter_plot. by rewrite Hb.
  - intros. unfold create_map_plot. by rewrite Hb.
  - intros y_column x_column xs ys Hx Hy. split_and!.
    + intros x_range y_range color_range x_title y_title.
      destruct (create_scatter_plot_eq df y_column x_column x_range y_range
                  color_range x_title y_title xs ys Hwf Hx Hy) as [lay E].
      rewrite E. by eexists.
    + destruct (create_cross_scatter_plot_eq df x_column y_column xs ys Hwf Hx Hy)
        as (lay & _ & _ & _ & _ & E).
      rewrite E. by eexists.
    + intros colorbar_title. destruct (decide (y_column = "")) as [->|Hne].
      * by eexists.
      * destruct (create_map_plot_eq df y_column colorbar_title ys Hne Hy)
          as [lay E].
        rewrite E. by eexists.
Qed.

Lemma render_out_of_bounds_as_no_highlight_witness :
  create_scatter_plot df3 "legislator_rate" "legislator_total_voter_density"
    (Some 7%Z) None None None None None =
  create_scatter_plot df3 "legislator_rate" "legislator_total_voter_density"
    None None None None None None ∧
  create_map_plot df3 (Some "legislator_vote") (Some (-1)%Z) None =
  create_map_plot df3 (Some "legislator_vote") None None.
Proof.
  split.
  - apply (render_out_of_bounds_as_no_highlight df3 7 wf_df3).
    right. vm_compute. discriminate.
  - apply (render_out_of_bounds_as_no_highlight df3 (-1) wf_df3).
    left. lia.
Defined.

(** ** The cross scatter plot *)

(** C8: the diagonal of the cross scatter plot runs from (r0, r0) to
    (r1, r1) where [r0, r1] = [0, max(x max, y max) * 1.05], and both axes
    are set to that same range. *)
Theorem create_cross_scatter_plot_diagonal df x_column y_column highlight_index xs ys :
  wf_df df →
  columns df !! x_column = Some xs →
  columns df !! y_column = Some ys →
  let axis_range : Range :=
    (0, Py.max (series_max xs) (series_max ys) * 1.05)%float in
  ∃ fig diagonal,
    create_cross_scatter_plot df x_column y_column highlight_index = Ok fig ∧
    data fig !! 1%nat = Some diagonal ∧
    name diagonal = Some "Diagonal (y=x)" ∧
    trace_x diagonal = [axis_range.1; axis_range.2] ∧
    trace_y diagonal = [axis_range.1; axis_range.2] ∧
    range (xaxis (layout fig)) = Some axis_range ∧
    range (yaxis (layout fig)) = Some axis_range.
Proof.
  intros Hwf Hx Hy r.
  destruct (create_cross_scatter_plot_eq df x_column y_column xs ys Hwf Hx Hy)
    as (lay & Hxr & Hyr & _ & _ & E).
  rewrite E. eexists _, (diagonal_trace r). split; [reflexivity|]. by split_and!.
Qed.

Lemma create_cross_scatter_plot_diagonal_witness :
  ∃ fig diagonal,
    create_cross_scatter_plot df3 "legislator_vote" "against_recall_vote"
      (Some 2%Z) = Ok fig ∧
    data fig !! 1%nat = Some diagonal ∧
    name diagonal = Some "Diagonal (y=x)" ∧
    trace_x diagonal = [0; 126]%float ∧
    trace_y diagonal = [0; 126]%float ∧
    range (xaxis (layout fig)) = Some (0, 126)%float ∧
    range (yaxis (layout fig)) = Some (0, 126)%float.
Proof.
  apply (create_cross_scatter_plot_diagonal df3 "legislator_vote"
           "against_recall_vote" (Some 2%Z) [120; 80; 100]%float
           [90; 110; 70]%float wf_df3); reflexivity.
Defined.

(** C10: the cross scatter plot applies no rate convention: whatever the
    two column names are, also when both contain "rate", its colour scale is
    Viridis (never RdYlGn), no fixed colour range is set, and both axes have
    the range [0, max(x max, y max) * 1.05]. *)
Theorem create_cross_scatter_plot_no_rate_convention df x_column y_column
    highlight_index xs ys :
  wf_df df →
  columns df !! x_column = Some xs →
  columns df !! y_column = Some ys →
  ∃ fig,
    create_cross_scatter_plot df x_column y_column highlight_index = Ok fig ∧
    colorscale (coloraxis (layout fig)) = Some Viridis ∧
    colorscale (coloraxis (layout fig)) ≠ Some RdYlGn ∧
    crange (coloraxis (layout fig)) = None ∧
    range (xaxis (layout fig)) =
      Some (0, Py.max (series_max xs) (series_max ys) * 1.05)%float ∧
    range (yaxis (layout fig)) =
      Some (0, Py.max (series_max xs) (series_max ys) * 1.05)%float.
Proof.
  intros Hwf Hx Hy.
  destruct (create_cross_scatter_plot_eq df x_column y_column xs ys Hwf Hx Hy)
    as (lay & Hxr & Hyr & Hcs & Hcr & E).
  rewrite E. eexists. split; [reflexivity|]. cbn [layout].
  rewrite Hcs. by split_and!.
Qed.

Lemma create_cross_scatter_plot_no_rate_convention_witness :
  is_rate "legislator_rate" && is_rate "against_recall_rate" = true ∧
  ∃ fig,
    create_cross_scatter_plot df3 "legislator_rate" "against_recall_rate"
      None = Ok fig ∧
    colorscale (coloraxis (layout fig)) = Some Viridis ∧
    colorscale (coloraxis (layout fig)) ≠ Some RdYlGn ∧
    crange (coloraxis (layout fig)) = None ∧
    range (xaxis (layout fig)) =
      Some (0, Py.max (series_max [0.4; 0.6; 0.8]) (series_max [0.3; 0.5; 0.7])
               * 1.05)%float ∧
    range (yaxis (layout fig)) =
      Some (0, Py.max (series_max [0.4; 0.6; 0.8]) (series_max [0.3; 0.5; 0.7])
               * 1.05)%float.
Proof.
  split; [reflexivity|].
  apply (create_cross_scatter_plot_no_rate_convention df3 "legislator_rate"
           "against_recall_rate" None [0.4; 0.6; 0.8]%float
           [0.3; 0.5; 0.7]%float wf_df3); reflexivity.
Defined.

(** For contrast, the paired scatter plot does apply the convention. *)
Lemma create_scatter_plot_rate_convention df y_column x_column highlight_index
    x_title y_title xs ys :
  wf_df df →
  columns df !! x_column = Some xs →
  columns df !! y_column = Some ys →
  is_rate y_column = true →
  ∃ fig,
    create_scatter_plot df y_column x_column highlight_index None None None
      x_title y_title = Ok fig ∧
    colorscale (coloraxis (layout fig)) = Some RdYlGn ∧
    crange (coloraxis (layout fig)) = Some (0, 1)%float ∧
    range (yaxis (layout fig)) = Some (0, 1)%float.
Proof.
  intros Hwf Hx Hy Hr. unfold create_scatter_plot, px_scatter.
  rewrite Hr, (px_column_Some _ _ _ Hx), (px_column_Some _ _ _ Hy).
  rewrite !(getitem_Some _ _ _ Hx). cbn.
  rewrite (scatter_highlight_step _ _ _ _ _ _ _ Hwf Hx Hy). cbn.
  eexists. split; [reflexivity|]. done.
Qed.

(** ** Missing selections *)

Lemma control_value_falsy v : Py.truthy v = false → control_value v = None.
Proof. unfold control_value. by intros ->. Qed.

Lemma control_value_Some c : c ≠ "" → control_value (Some c) = Some c.
Proof. by destruct c. Qed.

(** [create_map_plot] without a selected column returns the empty figure. *)
Lemma create_map_plot_unset df highlight_index colorbar_title :
  create_map_plot df None highlight_index colorbar_title = Ok go_Figure.
Proof. reflexivity. Qed.

(** [update_scatter] returns one empty figure for each of its two outputs. *)
Lemma update_scatter_unset df y_axis_type x_axis_column :
  Py.truthy y_axis_type = false ∨ Py.truthy x_axis_column = false →
  update_scatter df y_axis_type x_axis_column = Ok [go_Figure; go_Figure].
Proof.
  unfold update_scatter.
  intros [H|H]; rewrite (control_value_falsy _ H); [done|].
  by destruct (control_value y_axis_type).
Qed.

(** [update_map] with a cleared dropdown raises before it renders: the
    colour bar title is computed from [None] first. *)
Lemma update_map_unset_raises df :
  update_map df None = Raise (AttributeError "replace").
Proof. reflexivity. Qed.

(** C2, what the code does: when one of the three controls is unset the
    hover callback returns a tuple of four empty figures, one short of the
    five outputs it is registered with. *)
Theorem hover_callback_unset_returns_four df m u l cu cl y_axis_type
    x_axis_column main_dropdown current_map_fig :
  Py.truthy y_axis_type = false ∨ Py.truthy x_axis_column = false ∨
    Py.truthy main_dropdown = false →
  update_all_visualizations_with_highlight df m u l cu cl y_axis_type
    x_axis_column main_dropdown current_map_fig =
    Ok [go_Figure; go_Figure; go_Figure; go_Figure] ∧
  length [go_Figure; go_Figure; go_Figure; go_Figure] = 4%nat ∧
  length hover_callback_outputs = 5%nat.
Proof.
  intros H. split; [|done]. unfold update_all_visualizations_with_highlight.
  destruct H as [H|[H|H]]; rewrite (control_value_falsy _ H).
  - done.
  - by destruct (control_value y_axis_type).
  - by destruct (control_value y_axis_type), (control_value x_axis_column).
Qed.

Lemma hover_callback_unset_returns_four_witness :
  update_all_visualizations_with_highlight df3 (hover_at 1) None None None None
    None (Some "legislator_total_voter_density") (Some "legislator_rate")
    (Some prior_map_fig) =
    Ok [go_Figure; go_Figure; go_Figure; go_Figure] ∧
  length [go_Figure; go_Figure; go_Figure; go_Figure] = 4%nat ∧
  length hover_callback_outputs = 5%nat.
Proof.
  apply (hover_callback_unset_returns_four df3 (hover_at 1) None None None None
           None (Some "legislator_total_voter_density")
           (Some "legislator_rate") (Some prior_map_fig)).
  left. reflexivity.
Defined.

(** ** The incremental map update *)

Lemma strip_highlight_traces_named ts :
  Forall (λ t, is_Some (name t)) ts →
  strip_highlight_traces ts =
    Ok (List.filter (λ t, negb (has_highlight_name t)) ts).
Proof.
  induction 1 as [|t ts [nm Hnm] _ IH]; [done|].
  cbn [strip_highlight_traces List.filter].
  unfold is_highlight_trace, has_highlight_name. rewrite Hnm, bind_Ok, IH, bind_Ok.
  by destruct (Py.startswith nm "Highlighted").
Qed.

Lemma filter_not_highlight ts :
  Forall (λ t, has_highlight_name t = false)
    (List.filter (λ t, negb (has_highlight_name t)) ts).
Proof.
  apply Forall_forall. intros t Ht. apply list_elem_of_In, List.filter_In in Ht.
  destruct Ht as [_ Ht]. by apply negb_true_iff.
Qed.

(** C7: with all three controls set and a prior map figure supplied, the map
    figure returned by the hover callback keeps the prior layout and consists
    of the prior traces whose name does not start with "Highlighted",
    unchanged and in order, followed by nothing when no highlight index is
    resolved, and by the outlines of the highlighted row's geometry when one
    is: one trace per polygon part, with the longitudes and latitudes of
    that part's exterior ring. *)
Theorem hover_callback_incremental_map df m u l cu cl y_axis_type x_axis_column
    main_dropdown config traces lay xs us ls lr ar lv av :
  wf_df df →
  polygonal df →
  y_axis_type ≠ "" → x_axis_column ≠ "" → main_dropdown ≠ "" →
  scatter_configs !! y_axis_type = Some config →
  columns df !! x_axis_column = Some xs →
  columns df !! upper config = Some us →
  columns df !! lower config = Some ls →
  columns df !! "legislator_rate" = Some lr →
  columns df !! "against_recall_rate" = Some ar →
  columns df !! "legislator_vote" = Some lv →
  columns df !! "against_recall_vote" = Some av →
  Forall (λ t, is_Some (name t)) traces →
  ∃ upper_fig lower_fig cross_upper_fig cross_lower_fig map_fig new,
    update_all_visualizations_with_highlight df m u l cu cl (Some y_axis_type)
      (Some x_axis_column) (Some main_dropdown)
      (Some (mkFigureDict (Some traces) (Some lay))) =
      Ok [upper_fig; lower_fig; cross_upper_fig; cross_lower_fig; map_fig] ∧
    layout map_fig = lay ∧
    data map_fig =
      List.filter (λ t, negb (has_highlight_name t)) traces ++ new ∧
    Forall (λ t, has_highlight_name t = false)
      (List.filter (λ t, negb (has_highlight_name t)) traces) ∧
    Forall (λ t, has_highlight_name t = true) new ∧
    (new ≠ [] ↔ is_Some (resolve_highlight_index df m u l cu cl)) ∧
    match resolve_highlight_index df m u l cu cl with
    | None => new = []
    | Some i =>
        ∃ g, geometry df !! Z.to_nat i = Some g ∧
             new = highlight_traces g ∧ length new = polygon_parts g ∧
             (λ t, (lon t, lat t)) <$> new =
               (λ p, ((exterior p).*1, (exterior p).*2)) <$> geometry_parts g
    end.
Proof.
  intros Hwf Hpoly Hy Hx Hm Hcfg Hxs Hus Hls Hlr Har Hlv Hav Hnamed.
  unfold update_all_visualizations_with_highlight.
  rewrite (control_value_Some _ Hy), (control_value_Some _ Hx),
    (control_value_Some _ Hm), Hcfg.
  cbn [mbind result_bind].
  rewrite (calculate_consistent_ranges_eq _ _ _ _ _ _ _ Hxs Hus Hls).
  cbv zeta. cbn [mbind result_bind].
  destruct (get_axis_title_Some x_axis_column) as [tx ->].
  destruct (get_axis_title_Some (upper config)) as [tu ->].
  destruct (get_axis_title_Some (lower config)) as [tl ->].
  cbn [mbind result_bind].
  set (hl := resolve_highlight_index df m u l cu cl).
  destruct (create_scatter_plot_eq df (upper config) x_axis_column
              (Some ((- series_max xs) * 0.02, series_max xs * 1.02)%float)
              (Some (if is_rate (upper config) && is_rate (lower config)
                     then (0, 1.05)%float
                     else (0, Py.max (series_max us) (series_max ls) * 1.05)%float))
              (Some (if is_rate (upper config) && is_rate (lower config)
                     then (0, 1.05)%float
                     else (0, Py.max (series_max us) (series_max ls) * 1.05)%float))
              (Some tx) (Some tu) xs us Hwf Hxs Hus) as [lay1 ->].
  destruct (create_scatter_plot_eq df (lower config) x_axis_column
              (Some ((- series_max xs) * 0.02, series_max xs * 1.02)%float)
              (Some (if is_rate (upper config) && is_rate (lower config)
                     then (0, 1.05)%float
                     else (0, Py.max (series_max us) (series_max ls) * 1.05)%float))
              (Some (if is_rate (upper config) && is_rate (lower config)
                     then (0, 1.05)%float
                     else (0, Py.max (series_max us) (series_max ls) * 1.05)%float))
              (Some tx) (Some tl) xs ls Hwf Hxs Hls) as [lay2 ->].
  destruct (create_cross_scatter_plot_eq df _ _ lr ar Hwf Hlr Har)
    as (lay3 & _ & _ & _ & _ & ->).
  destruct (create_cross_scatter_plot_eq df _ _ lv av Hwf Hlv Hav)
    as (lay4 & _ & _ & _ & _ & ->).
  cbn [mbind result_bind option_bind fd_data fd_layout].
  rewrite (strip_highlight_traces_named _ Hnamed). cbn [mbind result_bind].
  destruct hl as [i|] eqn:Hhl.
  - pose proof (resolve_highlight_index_in_bounds _ _ _ _ _ _ _ Hhl) as Hb.
    destruct (in_bounds_geometry _ _ Hb) as [g Hg].
    apply in_bounds_spec in Hb as [Hi _].
    rewrite (iloc_Some _ _ _ Hi Hg). cbn [mbind result_bind].
    rewrite add_traces_eq. cbn [data layout].
    do 5 eexists. exists (highlight_traces g).
    split_and!; [reflexivity|done|done|apply filter_not_highlight
                |apply highlight_traces_named| |].
    + split; [by eexists|intros _].
      by apply highlight_traces_nonempty, (Forall_lookup_1 _ _ _ _ Hpoly Hg).
    + exists g. split_and!; [done|done|apply highlight_traces_length
                            |apply highlight_traces_coordinates].
  - do 5 eexists. exists [].
    split_and!; [reflexivity|done|by rewrite app_nil_r
                |apply filter_not_highlight|constructor| |done].
    split; [done|intros [? [=]]].
Qed.

Lemma hover_callback_incremental_map_witness :
  ∃ upper_fig lower_fig cross_upper_fig cross_lower_fig map_fig new,
    update_all_visualizations_with_highlight df3 (hover_at 1) None None None
      (hover_at 0) (Some "Support vote") (Some "legislator_total_voter_density")
      (Some "legislator_rate") (Some prior_map_fig) =
      Ok [upper_fig; lower_fig; cross_upper_fig; cross_lower_fig; map_fig] ∧
    layout map_fig = empty_layout ∧
    data map_fig =
      [go_Scattermapbox [] [] "base"; go_Scattermapbox [] [] "roads"] ++ new ∧
    Forall (λ t, has_highlight_name t = false)
      [go_Scattermapbox [] [] "base"; go_Scattermapbox [] [] "roads"] ∧
    Forall (λ t, has_highlight_name t = true) new ∧
    (new ≠ [] ↔
     is_Some (resolve_highlight_index df3 (hover_at 1) None None None (hover_at 0))) ∧
    ∃ g, geometry df3 !! Z.to_nat 1 = Some g ∧
         new = highlight_traces g ∧ length new = polygon_parts g ∧
         (λ t, (lon t, lat t)) <$> new =
           (λ p, ((exterior p).*1, (exterior p).*2)) <$> geometry_parts g.
Proof.
  apply (hover_callback_incremental_map df3 (hover_at 1) None None None
           (hover_at 0) "Support vote" "legislator_total_voter_density"
           "legislator_rate"
           (mkScatterConfig "legislator_vote" "against_recall_vote")
           [ go_Scattermapbox [] [] "base";
             go_Scattermapbox [1%float] [2%float] "Highlighted_7";
             go_Scattermapbox [] [] "Highlighted"; go_Scattermapbox [] [] "roads" ]
           empty_layout [100; 50; 25]%float [120; 80; 100]%float
           [90; 110; 70]%float [0.4; 0.6; 0.8]%float [0.3; 0.5; 0.7]%float
           [120; 80; 100]%float [90; 110; 70]%float).
  - exact wf_df3.
  - exact polygonal_df3.
  - discriminate.
  - discriminate.
  - discriminate.
  - reflexivity.
  - reflexivity.
  - reflexivity.
  - reflexivity.
  - reflexivity.
  - reflexivity.
  - reflexivity.
  - reflexivity.
  - repeat constructor; by eexists.
Defined.

(** ** The scenarios of the specification on the sample dataset *)

(** An outline follows the exterior ring of its polygon. *)
Lemma outline_trace_position polygon nm :
  lon (outline_trace polygon nm) = (exterior polygon).*1 ∧
  lat (outline_trace polygon nm) = (exterior polygon).*2.
Proof. done. Qed.

(** Category "Support vote rate": both plots share the range [0, 1.05]. *)
Example scenario_support_vote_rate :
  scatter_configs !! "Support vote rate" =
    Some (mkScatterConfig "legislator_rate" "against_recall_rate") ∧
  calculate_consistent_ranges df3 "legislator_rate" "against_recall_rate"
    "legislator_total_voter_density" =
    Ok ((-2, 102)%float, (0, 1.05)%float, (0, 1.05)%float).
Proof. split; reflexivity. Qed.

(** Hovering row 1 on the map alone resolves to row 1, and the upper scatter
    plot then carries its marker at row 1's coordinates. *)
Example scenario_hover_map_row_1 :
  resolve_highlight_index df3 (hover_at 1) None None None None = Some 1%Z ∧
  (fig ← create_scatter_plot df3 "legislator_rate"
           "legislator_total_voter_density" (Some 1%Z) None None None None None;
   Ok (highlight_overlays fig)) = Ok [highlight_marker 50 0.6].
Proof. split; reflexivity. Qed.

(** Map on row 0 and lower scatter on row 2 at once: the map wins. *)
Example scenario_map_takes_priority :
  resolve_highlight_index df3 (hover_at 0) None (hover_at 2) None None = Some 0%Z.
Proof. reflexivity. Qed.

(** * Further properties of the callbacks and renders *)

(** ** The hover callback on a dataset that has the selected columns *)

Lemma filter_filter {A} (f : A → bool) l :
  List.filter f (List.filter f l) = List.filter f l.
Proof.
  induction l as [|a l IH]; cbn; [done|].
  destruct (f a) eqn:E; cbn; [|done]. by rewrite E, IH.
Qed.

Lemma filter_none {A} (f : A → bool) l :
  Forall (λ a, f a = false) l → List.filter f l = [].
Proof. induction 1 as [|a l Ha _ IH]; cbn; [done|]. by rewrite Ha. Qed.

Lemma strip_highlight_traces_unnamed ts :
  Exists (λ t, name t = None) ts →
  strip_highlight_traces ts = Raise (AttributeError "startswith").
Proof.
  induction 1 as [t ts Ht|t ts _ IH]; cbn [strip_highlight_traces].
  - unfold is_highlight_trace. by rewrite Ht.
  - unfold is_highlight_trace. destruct (name t); [|done].
    by rewrite bind_Ok, IH.
Qed.

(** The map block on a prior figure whose traces all carry a name. *)
Lemma hover_map_block_prior df highlight_index main_dropdown traces lay :
  Forall (λ t, is_Some (name t)) traces →
  (∀ i, highlight_index = Some i → in_bounds df i = true) →
  hover_map_block df highlight_index main_dropdown
    (Some (mkFigureDict (Some traces) (Some lay))) =
  Ok {| data := List.filter (λ t, negb (has_highlight_name t)) traces ++
                map_overlay df highlight_index;
        layout := lay |}.
Proof.
  intros Hnamed Hb. unfold hover_map_block, map_overlay.
  cbn [mbind result_bind option_bind fd_data fd_layout].
  rewrite (strip_highlight_traces_named _ Hnamed). cbn [mbind result_bind].
  destruct highlight_index as [i|]; [|by rewrite app_nil_r].
  rewrite (Hb i eq_refl).
  destruct (in_bounds_geometry _ _ (Hb i eq_refl)) as [g Hg]. rewrite Hg.
  pose proof (Hb i eq_refl) as Hi. apply in_bounds_spec in Hi as [Hi _].
  by rewrite (iloc_Some _ _ _ Hi Hg), bind_Ok, add_traces_eq.
Qed.

Section hover_callback.

Variable df : DataFrame.
Variables y_axis_type x_axis_column main_dropdown : string.
Variable config : ScatterConfig.
Variables xs us ls lr ar lv av : list float.

Hypothesis df_wf : wf_df df.
Hypothesis y_axis_type_set : y_axis_type ≠ "".
Hypothesis x_axis_column_set : x_axis_column ≠ "".
Hypothesis main_dropdown_set : main_dropdown ≠ "".
Hypothesis category : scatter_configs !! y_axis_type = Some config.
Hypothesis x_axis_cells : columns df !! x_axis_column = Some xs.
Hypothesis upper_cells : columns df !! upper config = Some us.
Hypothesis lower_cells : columns df !! lower config = Some ls.
Hypothesis legislator_rate_cells : columns df !! "legislator_rate" = Some lr.
Hypothesis against_recall_rate_cells :
  columns df !! "against_recall_rate" = Some ar.
Hypothesis legislator_vote_cells : columns df !! "legislator_vote" = Some lv.
Hypothesis against_recall_vote_cells :
  columns df !! "against_recall_vote" = Some av.

(** The four scatter figures of the three callbacks, side by side: the same
    four layouts serve the refresh, the initial cross plots and every hover. *)
Lemma callbacks_eq :
  ∃ lay1 lay2 lay3 lay4,
    update_scatter df (Some y_axis_type) (Some x_axis_column) =
      Ok [ {| data := [px_scatter_trace df xs us]; layout := lay1 |};
           {| data := [px_scatter_trace df xs ls]; layout := lay2 |} ] ∧
    create_initial_cross_scatter_plots df =
      Ok [ {| data := [ px_scatter_trace df lr ar;
                        diagonal_trace
                          (0, Py.max (series_max lr) (series_max ar) * 1.05)%float ];
              layout := lay3 |};
           {| data := [ px_scatter_trace df lv av;
                        diagonal_trace
                          (0, Py.max (series_max lv) (series_max av) * 1.05)%float ];
              layout := lay4 |} ] ∧
    ∀ m u l cu cl current_map_fig,
      update_all_visualizations_with_highlight df m u l cu cl
        (Some y_axis_type) (Some x_axis_column) (Some main_dropdown)
        current_map_fig =
      let highlight_index := resolve_highlight_index df m u l cu cl in
      map_fig ← hover_map_block df highlight_index main_dropdown current_map_fig;
      Ok [ {| data := px_scatter_trace df xs us ::
                      scatter_overlay df xs us highlight_index;
              layout := lay1 |};
           {| data := px_scatter_trace df xs ls ::
                      scatter_overlay df xs ls highlight_index;
              layout := lay2 |};
           {| data := px_scatter_trace df lr ar ::
                      diagonal_trace
                        (0, Py.max (series_max lr) (series_max ar) * 1.05)%float ::
                      scatter_overlay df lr ar highlight_index;
              layout := lay3 |};
           {| data := px_scatter_trace df lv av ::
                      diagonal_trace
                        (0, Py.max (series_max lv) (series_max av) * 1.05)%float ::
                      scatter_overlay df lv av highlight_index;
              layout := lay4 |};
           map_fig ].
Proof.
  destruct (get_axis_title_Some x_axis_column) as [tx Htx].
  destruct (get_axis_title_Some (upper config)) as [tu Htu].
  destruct (get_axis_title_Some (lower config)) as [tl Htl].
  set (shared := if is_rate (upper config) && is_rate (lower config)
                 then (0, 1.05)%float
                 else (0, Py.max (series_max us) (series_max ls) * 1.05)%float).
  destruct (create_scatter_plot_eq df (upper config) x_axis_column
              (Some ((- series_max xs) * 0.02, series_max xs * 1.02)%float)
              (Some shared) (Some shared) (Some tx) (Some tu) xs us
              df_wf x_axis_cells upper_cells) as [lay1 E1].
  destruct (create_scatter_plot_eq df (lower config) x_axis_column
              (Some ((- series_max xs) * 0.02, series_max xs * 1.02)%float)
              (Some shared) (Some shared) (Some tx) (Some tl) xs ls
              df_wf x_axis_cells lower_cells) as [lay2 E2].
  destruct (create_cross_scatter_plot_eq df _ _ lr ar df_wf
              legislator_rate_cells against_recall_rate_cells)
    as (lay3 & _ & _ & _ & _ & E3).
  destruct (create_cross_scatter_plot_eq df _ _ lv av df_wf
              legislator_vote_cells against_recall_vote_cells)
    as (lay4 & _ & _ & _ & _ & E4).
  exists lay1, lay2, lay3, lay4. split_and!.
  - unfold update_scatter.
    rewrite (control_value_Some _ y_axis_type_set),
      (control_value_Some _ x_axis_column_set), category.
    cbn [mbind result_bind].
    rewrite (calculate_consistent_ranges_eq _ _ _ _ _ _ _
               x_axis_cells upper_cells lower_cells).
    cbv zeta. cbn [mbind result_bind]. rewrite Htx, Htu, Htl.
    cbn [mbind result_bind]. fold shared. by rewrite E1, E2.
  - unfold create_initial_cross_scatter_plots. by rewrite E3, E4.
  - intros m u l cu cl current_map_fig.
    unfold update_all_visualizations_with_highlight.
    rewrite (control_value_Some _ y_axis_type_set),
      (control_value_Some _ x_axis_column_set),
      (control_value_Some _ main_dropdown_set), category.
    cbn [mbind result_bind].
    rewrite (calculate_consistent_ranges_eq _ _ _ _ _ _ _
               x_axis_cells upper_cells lower_cells).
    cbv zeta. cbn [mbind result_bind]. rewrite Htx, Htu, Htl.
    cbn [mbind result_bind]. fold shared. rewrite E1, E2, E3, E4.
    reflexivity.
Qed.

(** X2: with the three controls set, a category of [scatter_configs] and a
    dataset that has the selected columns, hovering never changes the layout
    of the four scatter charts: whenever the hover callback returns, it
    returns five figures, and the layouts (axis ranges, titles, colour axis)
    of the first four are those of [update_scatter] for the same controls
    and of the initial cross plots, whatever is hovered and whatever the
    prior map figure. *)
Theorem hover_callback_keeps_layouts m u l cu cl current_map_fig figs :
  update_all_visualizations_with_highlight df m u l cu cl (Some y_axis_type)
    (Some x_axis_column) (Some main_dropdown) current_map_fig = Ok figs →
  ∃ refresh cross,
    update_scatter df (Some y_axis_type) (Some x_axis_column) = Ok refresh ∧
    create_initial_cross_scatter_plots df = Ok cross ∧
    layout <$> take 4 figs = layout <$> (refresh ++ cross) ∧
    length figs = 5%nat.
Proof.
  destruct callbacks_eq as (lay1 & lay2 & lay3 & lay4 & Hr & Hc & E).
  rewrite E, Hr, Hc. cbv zeta.
  destruct (hover_map_block _ _ _ _) as [map_fig|e]; [|done].
  intros [= <-]. by do 2 eexists.
Qed.

(** X3: highlights do not pile up.  When the map figure returned for one
    hover comes back as the prior figure of the next hover, the callback
    returns what it returns on the original prior figure: the outlines of
    the first hover are gone and only those of the second are drawn. *)
Theorem hover_callback_replaces_highlight m1 u1 l1 cu1 cl1 m2 u2 l2 cu2 cl2
    traces lay :
  Forall (λ t, is_Some (name t)) traces →
  ∃ upper_fig lower_fig cross_upper_fig cross_lower_fig map_fig,
    update_all_visualizations_with_highlight df m1 u1 l1 cu1 cl1
      (Some y_axis_type) (Some x_axis_column) (Some main_dropdown)
      (Some (mkFigureDict (Some traces) (Some lay))) =
      Ok [upper_fig; lower_fig; cross_upper_fig; cross_lower_fig; map_fig] ∧
    update_all_visualizations_with_highlight df m2 u2 l2 cu2 cl2
      (Some y_axis_type) (Some x_axis_column) (Some main_dropdown)
      (Some (figure_state map_fig)) =
    update_all_visualizations_with_highlight df m2 u2 l2 cu2 cl2
      (Some y_axis_type) (Some x_axis_column) (Some main_dropdown)
      (Some (mkFigureDict (Some traces) (Some lay))).
Proof.
  intros Hnamed.
  destruct callbacks_eq as (lay1 & lay2 & lay3 & lay4 & _ & _ & E).
  rewrite !E. cbv zeta.
  set (hl1 := resolve_highlight_index df m1 u1 l1 cu1 cl1).
  set (hl2 := resolve_highlight_index df m2 u2 l2 cu2 cl2).
  assert (H1 : ∀ i, hl1 = Some i → in_bounds df i = true)
    by (intros i; apply resolve_highlight_index_in_bounds).
  assert (H2 : ∀ i, hl2 = Some i → in_bounds df i = true)
    by (intros i; apply resolve_highlight_index_in_bounds).
  rewrite (hover_map_block_prior _ _ _ _ _ Hnamed H1).
  rewrite (hover_map_block_prior _ _ _ _ _ Hnamed H2).
  cbn [mbind result_bind]. do 5 eexists. split; [reflexivity|].
  rewrite E. cbv zeta. fold hl2. unfold figure_state. cbn [data layout].
  rewrite hover_map_block_prior; [|..|exact H2].
  - rewrite List.filter_app, filter_filter, (filter_none _ (map_overlay df hl1)).
    + by rewrite app_nil_r.
    + eapply Forall_impl; [apply map_overlay_named|].
      intros t Ht. cbn beta. by rewrite Ht.
  - apply Forall_app. split.
    + apply Forall_forall. intros t Ht.
      apply list_elem_of_In, List.filter_In in Ht as [Ht _].
      apply list_elem_of_In in Ht.
      by apply (proj1 (Forall_forall _ _) Hnamed).
    + eapply Forall_impl; [apply map_overlay_named|].
      intros t. unfold has_highlight_name. destruct (name t); [by eexists|done].
Qed.

(** X4: without a resolved highlight a prior map figure that carries no
    highlight trace is returned as it came. *)
Theorem hover_callback_no_hover_keeps_map m u l cu cl traces lay :
  Forall (λ t, is_Some (name t) ∧ has_highlight_name t = false) traces →
  resolve_highlight_index df m u l cu cl = None →
  ∃ upper_fig lower_fig cross_upper_fig cross_lower_fig,
    update_all_visualizations_with_highlight df m u l cu cl
      (Some y_axis_type) (Some x_axis_column) (Some main_dropdown)
      (Some (mkFigureDict (Some traces) (Some lay))) =
      Ok [upper_fig; lower_fig; cross_upper_fig; cross_lower_fig;
          {| data := traces; layout := lay |}].
Proof.
  intros Hclean Hhl.
  destruct callbacks_eq as (lay1 & lay2 & lay3 & lay4 & _ & _ & E).
  rewrite E, Hhl. cbv zeta.
  rewrite hover_map_block_prior; [|by eapply Forall_impl; [exact Hclean|intros ? []]|done].
  rewrite filter_all_true.
  - cbn. rewrite app_nil_r. by do 4 eexists.
  - eapply Forall_impl; [exact Hclean|]. intros t [_ Ht]. cbn beta. by rewrite Ht.
Qed.

(** X5: the [hasattr] guard of the strip step does not protect it.  A prior
    map figure with one trace that carries no name makes the hover callback
    raise [AttributeError], after the four scatter figures were built. *)
Theorem hover_callback_unnamed_trace_raises m u l cu cl traces lay :
  Exists (λ t, name t = None) traces →
  update_all_visualizations_with_highlight df m u l cu cl
    (Some y_axis_type) (Some x_axis_column) (Some main_dropdown)
    (Some (mkFigureDict (Some traces) (Some lay))) =
    Raise (AttributeError "startswith").
Proof.
  intros Hun.
  destruct callbacks_eq as (lay1 & lay2 & lay3 & lay4 & _ & _ & E).
  rewrite E. cbv zeta. unfold hover_map_block.
  cbn [mbind result_bind option_bind fd_data fd_layout].
  by rewrite (strip_highlight_traces_unnamed _ Hun).
Qed.

End hover_callback.

(** ** The resolved index is a row *)

(** X1: the highlight index handed to the renders is always a row of the
    dataset, so [df.iloc] on it cannot fail; on a dataset without rows no
    hover event resolves to a highlight. *)
Theorem resolve_highlight_index_is_row df m u l cu cl :
  (∀ i, resolve_highlight_index df m u l cu cl = Some i →
        (0 ≤ i < len df)%Z ∧ is_Ok (iloc (geometry df) i)) ∧
  (geometry df = [] → resolve_highlight_index df m u l cu cl = None).
Proof.
  split.
  - intros i Hi. apply resolve_highlight_index_in_bounds in Hi.
    destruct (in_bounds_geometry _ _ Hi) as [g Hg].
    apply in_bounds_spec in Hi. split; [done|].
    exists g. apply iloc_Some; [lia|done].
  - intros Hempty.
    destruct (resolve_highlight_index df m u l cu cl) as [i|] eqn:Hi; [|done].
    apply resolve_highlight_index_in_bounds, in_bounds_spec in Hi.
    unfold len in Hi. rewrite Hempty in Hi. cbn in Hi. lia.
Qed.

(** ** Layouts of the renders *)

(** X8: the ranges and the colour scale of [create_scatter_plot].  A range
    that is passed in is used as it is; a missing x-range defaults to
    [min, max] of the x column; a missing y-range or colour range defaults
    to [0, 1] for a rate-named y column and to [0, column max] otherwise; the
    colour scale is RdYlGn for a rate-named y column and Viridis otherwise;
    an axis title that is missing or empty falls back to the column name. *)
Theorem create_scatter_plot_layout df y_column x_column highlight_index
    x_range y_range color_range x_title y_title xs ys :
  wf_df df →
  columns df !! x_column = Some xs →
  columns df !! y_column = Some ys →
  ∃ fig,
    create_scatter_plot df y_column x_column highlight_index x_range y_range
      color_range x_title y_title = Ok fig ∧
    range (xaxis (layout fig)) =
      Some (default (series_min xs, series_max xs) x_range) ∧
    range (yaxis (layout fig)) =
      Some (default (if is_rate y_column then (0, 1)%float
                     else (0%float, series_max ys)) y_range) ∧
    crange (coloraxis (layout fig)) =
      Some (default (if is_rate y_column then (0, 1)%float
                     else (0%float, series_max ys)) color_range) ∧
    colorscale (coloraxis (layout fig)) =
      Some (if is_rate y_column then RdYlGn else Viridis) ∧
    axis_title (xaxis (layout fig)) =
      (if Py.truthy x_title then x_title else Some x_column) ∧
    axis_title (yaxis (layout fig)) =
      (if Py.truthy y_title then y_title else Some y_column).
Proof.
  intros Hwf Hx Hy. unfold create_scatter_plot, px_scatter.
  rewrite (px_column_Some _ _ _ Hx), (px_column_Some _ _ _ Hy).
  rewrite !(getitem_Some _ _ _ Hx), !(getitem_Some _ _ _ Hy).
  destruct (is_rate y_column), color_range, y_range, x_range; cbn;
    rewrite (scatter_highlight_step _ _ _ _ _ _ _ Hwf Hx Hy); cbn;
    eexists; (split; [reflexivity|]); by split_and!.
Qed.

Lemma create_scatter_plot_layout_witness :
  ∃ fig,
    create_scatter_plot df3 "legislator_vote" "legislator_total_voter_density"
      (Some 2%Z) None (Some (0, 200)%float) None None (Some "votes") = Ok fig ∧
    range (xaxis (layout fig)) =
      Some (default (series_min [100; 50; 25], series_max [100; 50; 25])%float
              None) ∧
    range (yaxis (layout fig)) =
      Some (default (if is_rate "legislator_vote" then (0, 1)%float
                     else (0, series_max [120; 80; 100])%float)
              (Some (0, 200)%float)) ∧
    crange (coloraxis (layout fig)) =
      Some (default (if is_rate "legislator_vote" then (0, 1)%float
                     else (0, series_max [120; 80; 100])%float) None) ∧
    colorscale (coloraxis (layout fig)) =
      Some (if is_rate "legislator_vote" then RdYlGn else Viridis) ∧
    axis_title (xaxis (layout fig)) =
      (if Py.truthy None then None else Some "legislator_total_voter_density") ∧
    axis_title (yaxis (layout fig)) =
      (if Py.truthy (Some "votes") then Some "votes" else Some "legislator_vote").
Proof.
  apply (create_scatter_plot_layout df3 "legislator_vote"
           "legislator_total_voter_density" (Some 2%Z) None
           (Some (0, 200)%float) None None (Some "votes")
           [100; 50; 25]%float [120; 80; 100]%float wf_df3); reflexivity.
Defined.

(** X7: the layout of [create_map_plot] for a chosen numeric column (a
    column of [columns]; the string columns [area_name] and [region] are not
    covered): the colour scale is RdYlGn over [0, 1] for a rate-named column
    and Viridis over [0, column max] otherwise, the title names the column,
    and the colour bar is titled by the given title, or by the column name
    when the title is missing or empty; the highlight changes none of
    this. *)
Theorem create_map_plot_layout df col highlight_index colorbar_title zs :
  col ≠ "" →
  columns df !! col = Some zs →
  ∃ fig,
    create_map_plot df (Some col) highlight_index colorbar_title = Ok fig ∧
    colorscale (coloraxis (layout fig)) =
      Some (if is_rate col then RdYlGn else Viridis) ∧
    crange (coloraxis (layout fig)) =
      Some (if is_rate col then (0, 1)%float else (0%float, series_max zs)) ∧
    title (layout fig) = Some ("Choropleth Map: " +:+ col) ∧
    bar_title (colorbar (coloraxis (layout fig))) =
      (if Py.truthy colorbar_title then colorbar_title else Some col) ∧
    height (layout fig) = Some 600%Z.
Proof.
  intros Hne Hc. unfold create_map_plot, px_choropleth_mapbox.
  assert (Py.truthy (Some col) = true) as -> by (by destruct col).
  rewrite (px_column_Some _ _ _ Hc), (getitem_Some _ _ _ Hc).
  assert (Hstep : ∀ fig,
    ∃ fig', match highlight_index with
            | Some i =>
                if in_bounds df i then
                  highlighted_geom ← iloc (geometry df) i;
                  Ok (add_traces fig (highlight_traces highlighted_geom))
                else Ok fig
            | None => Ok fig
            end = Ok fig' ∧ layout fig' = layout fig).
  { intros fig. destruct highlight_index as [i|]; [|by eexists].
    destruct (in_bounds df i) eqn:Hb; [|by eexists].
    destruct (in_bounds_geometry _ _ Hb) as [g Hg].
    apply in_bounds_spec in Hb as [Hi _].
    rewrite (iloc_Some _ _ _ Hi Hg), bind_Ok. eexists. split; [done|].
    apply layout_add_traces. }
  destruct (is_rate col); cbn;
    match goal with
    | |- context [add_traces ?f _] => destruct (Hstep f) as (fig' & -> & Hl)
    end;
    cbn; rewrite Hl; eexists; (split; [reflexivity|]); by split_and!.
Qed.

Lemma create_map_plot_layout_witness :
  ∃ fig,
    create_map_plot df3 (Some "legislator_vote") (Some 1%Z) (Some "") = Ok fig ∧
    colorscale (coloraxis (layout fig)) =
      Some (if is_rate "legislator_vote" then RdYlGn else Viridis) ∧
    crange (coloraxis (layout fig)) =
      Some (if is_rate "legislator_vote" then (0, 1)%float
            else (0, series_max [120; 80; 100])%float) ∧
    title (layout fig) = Some ("Choropleth Map: " +:+ "legislator_vote") ∧
    bar_title (colorbar (coloraxis (layout fig))) =
      (if Py.truthy (Some "") then Some "" else Some "legislator_vote") ∧
    height (layout fig) = Some 600%Z.
Proof.
  apply (create_map_plot_layout df3 "legislator_vote" (Some 1%Z) (Some "")
           [120; 80; 100]%float); [discriminate|reflexivity].
Defined.

(** ** Rows and points *)

(** X9: whatever the highlight, the first trace of every render holds all
    rows in dataset order: the scatter renders plot the two columns cell by
    cell, coloured by the y column and labelled by [area_name], and the map
    has one location per row, numbered from 0, so that location [j] of the
    first map trace is row [j]. *)
Theorem render_points_follow_rows df y_column x_column highlight_index
    x_range y_range color_range x_title y_title colorbar_title xs ys :
  wf_df df →
  y_column ≠ "" →
  columns df !! x_column = Some xs →
  columns df !! y_column = Some ys →
  ∃ scatter cross map points outline,
    create_scatter_plot df y_column x_column highlight_index x_range y_range
      color_range x_title y_title = Ok scatter ∧
    create_cross_scatter_plot df x_column y_column highlight_index = Ok cross ∧
    create_map_plot df (Some y_column) highlight_index colorbar_title = Ok map ∧
    head (data scatter) = Some points ∧
    head (data cross) = Some points ∧
    head (data map) = Some outline ∧
    trace_x points = xs ∧ trace_y points = ys ∧ color points = ys ∧
    hovertext points = area_name df ∧
    z outline = ys ∧ geojson outline = geometry df ∧
    length (locations outline) = length (geometry df) ∧
    ∀ j, in_bounds df j = true → locations outline !! Z.to_nat j = Some j.
Proof.
  intros Hwf Hne Hx Hy.
  destruct (create_scatter_plot_eq df y_column x_column x_range y_range
              color_range x_title y_title xs ys Hwf Hx Hy) as [lay1 E1].
  destruct (create_cross_scatter_plot_eq df x_column y_column xs ys Hwf Hx Hy)
    as (lay2 & _ & _ & _ & _ & E2).
  destruct (create_map_plot_eq df y_column colorbar_title ys Hne Hy)
    as [lay3 E3].
  rewrite E1, E2, E3.
  eexists _, _, _, (px_scatter_trace df xs ys), (px_choropleth_trace df ys).
  split_and!; try reflexivity.
  - cbn. by rewrite length_fmap, length_seq.
  - intros j Hj. apply in_bounds_spec in Hj. unfold len in Hj. cbn.
    rewrite list_lookup_fmap, lookup_seq_lt by lia. cbn.
    f_equal. lia.
Qed.

Lemma render_points_follow_rows_witness :
  ∃ scatter cross map points outline,
    create_scatter_plot df3 "legislator_vote" "legislator_total_voter_density"
      (Some 1%Z) None None None None None = Ok scatter ∧
    create_cross_scatter_plot df3 "legislator_total_voter_density"
      "legislator_vote" (Some 1%Z) = Ok cross ∧
    create_map_plot df3 (Some "legislator_vote") (Some 1%Z) None = Ok map ∧
    head (data scatter) = Some points ∧
    head (data cross) = Some points ∧
    head (data map) = Some outline ∧
    trace_x points = [100; 50; 25]%float ∧
    trace_y points = [120; 80; 100]%float ∧
    color points = [120; 80; 100]%float ∧
    hovertext points = area_name df3 ∧
    z outline = [120; 80; 100]%float ∧ geojson outline = geometry df3 ∧
    length (locations outline) = length (geometry df3) ∧
    ∀ j, in_bounds df3 j = true → locations outline !! Z.to_nat j = Some j.
Proof.
  apply (render_points_follow_rows df3 "legislator_vote"
           "legislator_total_voter_density" (Some 1%Z) None None None None
           None None [100; 50; 25]%float [120; 80; 100]%float wf_df3);
    [discriminate|reflexivity|reflexivity].
Defined.

(** ** Missing columns and categories *)

(** X10: a render on a column the dataset does not have at all (neither
    among the numeric columns nor as [area_name], [region] or [geometry])
    raises, and which exception depends on who reads the column first: the cross scatter plot
    and the map of a column that is not rate-named take the column maximum
    themselves and raise [KeyError]; the map of a rate-named column and the
    scatter plot with all ranges given leave the lookup to plotly express,
    which raises [ValueError]. *)
Theorem render_missing_column_raises df x_column y_column highlight_index :
  lacks_column df y_column →
  y_column ≠ "" →
  (∀ xs, columns df !! x_column = Some xs →
         create_cross_scatter_plot df x_column y_column highlight_index =
           Raise (KeyError y_column)) ∧
  create_cross_scatter_plot df y_column x_column highlight_index =
    Raise (KeyError y_column) ∧
  (∀ colorbar_title,
     create_map_plot df (Some y_column) highlight_index colorbar_title =
       Raise (if is_rate y_column then ValueError y_column
              else KeyError y_column)) ∧
  (∀ xs x_range y_range color_range x_title y_title,
     columns df !! x_column = Some xs →
     create_scatter_plot df y_column x_column highlight_index (Some x_range)
       (Some y_range) (Some color_range) x_title y_title =
       Raise (ValueError y_column)) ∧
  (∀ x_range y_range x_title y_title,
     is_rate y_column = false →
     create_scatter_plot df y_column x_column highlight_index x_range
       y_range None x_title y_title = Raise (KeyError y_column)).
Proof.
  intros [Hy _] Hne. split_and!.
  - intros xs Hx. unfold create_cross_scatter_plot, getitem. by rewrite Hx, Hy.
  - unfold create_cross_scatter_plot, getitem. by rewrite Hy.
  - intros colorbar_title. unfold create_map_plot, px_choropleth_mapbox.
    assert (Py.truthy (Some y_column) = true) as -> by (by destruct y_column).
    unfold getitem, px_column. rewrite Hy. by destruct (is_rate y_column).
  - intros xs x_range y_range color_range x_title y_title Hx.
    unfold create_scatter_plot, px_scatter, px_column. rewrite Hx, Hy.
    by destruct (is_rate y_column).
  - intros x_range y_range x_title y_title Hr.
    unfold create_scatter_plot, getitem. by rewrite Hr, Hy.
Qed.

Lemma render_missing_column_raises_witness :
  create_cross_scatter_plot df3 "turnout" "legislator_vote" None =
    Raise (KeyError "turnout") ∧
  create_map_plot df3 (Some "recall_rate") (Some 1%Z) None =
    Raise (ValueError "recall_rate").
Proof.
  split.
  - apply (render_missing_column_raises df3 "legislator_vote" "turnout" None);
      [|discriminate].
    split; [reflexivity|]. unfold non_numeric_columns.
    rewrite !not_elem_of_cons. split_and!; [done..|apply not_elem_of_nil].
  - apply (render_missing_column_raises df3 "legislator_vote" "recall_rate"
             (Some 1%Z)); [|discriminate].
    split; [reflexivity|]. unfold non_numeric_columns.
    rewrite !not_elem_of_cons. split_and!; [done..|apply not_elem_of_nil].
Defined.



(** ** The paired scatter plots *)

(** Both columns of a category are of one kind: rate-named or not. *)
Lemma scatter_configs_same_kind y_axis_type config :
  scatter_configs !! y_axis_type = Some config →
  is_rate (upper config) = is_rate (lower config).
Proof.
  revert y_axis_type config.
  change (map_Forall (λ _ c, is_rate (upper c) = is_rate (lower c))
            scatter_configs).
  apply (bool_decide_unpack _). by vm_compute.
Qed.

Lemma create_scatter_plot_given_ranges df y_column x_column highlight_index
    x_range y_range color_range x_title y_title xs ys :
  wf_df df →
  columns df !! x_column = Some xs →
  columns df !! y_column = Some ys →
  ∃ fig,
    create_scatter_plot df y_column x_column highlight_index (Some x_range)
      (Some y_range) (Some color_range) x_title y_title = Ok fig ∧
    range (xaxis (layout fig)) = Some x_range ∧
    range (yaxis (layout fig)) = Some y_range ∧
    crange (coloraxis (layout fig)) = Some color_range ∧
    colorscale (coloraxis (layout fig)) =
      Some (if is_rate y_column then RdYlGn else Viridis).
Proof.
  intros Hwf Hx Hy. unfold create_scatter_plot, px_scatter.
  rewrite (px_column_Some _ _ _ Hx), (px_column_Some _ _ _ Hy).
  destruct (is_rate y_column); cbn;
    rewrite (scatter_highlight_step _ _ _ _ _ _ _ Hwf Hx Hy); cbn;
    eexists; (split; [reflexivity|]); by split_and!.
Qed.

(** X12: the two figures of [update_scatter] can be compared by eye: they
    have the same x-range, the same y-range, the same colour range and the
    same colour scale, for every category of [scatter_configs]. *)
Theorem update_scatter_shared_ranges df y_axis_type x_axis_column config
    xs us ls :
  wf_df df →
  y_axis_type ≠ "" → x_axis_column ≠ "" →
  scatter_configs !! y_axis_type = Some config →
  columns df !! x_axis_column = Some xs →
  columns df !! upper config = Some us →
  columns df !! lower config = Some ls →
  ∃ upper_fig lower_fig x_range shared,
    update_scatter df (Some y_axis_type) (Some x_axis_column) =
      Ok [upper_fig; lower_fig] ∧
    calculate_consistent_ranges df (upper config) (lower config)
      x_axis_column = Ok (x_range, shared, shared) ∧
    range (xaxis (layout upper_fig)) = Some x_range ∧
    range (xaxis (layout lower_fig)) = Some x_range ∧
    range (yaxis (layout upper_fig)) = Some shared ∧
    range (yaxis (layout lower_fig)) = Some shared ∧
    crange (coloraxis (layout upper_fig)) = Some shared ∧
    crange (coloraxis (layout lower_fig)) = Some shared ∧
    colorscale (coloraxis (layout upper_fig)) =
      colorscale (coloraxis (layout lower_fig)).
Proof.
  intros Hwf Hy Hx Hcfg Hxs Hus Hls. unfold update_scatter.
  rewrite (control_value_Some _ Hy), (control_value_Some _ Hx), Hcfg.
  cbn [mbind result_bind].
  rewrite (calculate_consistent_ranges_eq _ _ _ _ _ _ _ Hxs Hus Hls).
  cbv zeta. cbn [mbind result_bind].
  destruct (get_axis_title_Some x_axis_column) as [tx ->].
  destruct (get_axis_title_Some (upper config)) as [tu ->].
  destruct (get_axis_title_Some (lower config)) as [tl ->].
  cbn [mbind result_bind].
  edestruct (λ x_range y_range color_range,
      create_scatter_plot_given_ranges df (upper config) x_axis_column None
        x_range y_range color_range (Some tx) (Some tu) xs us Hwf Hxs Hus)
    as (upper_fig & Eu & Hux & Huy & Huc & Hus').
  rewrite Eu. clear Eu. cbn [mbind result_bind].
  edestruct (λ x_range y_range color_range,
      create_scatter_plot_given_ranges df (lower config) x_axis_column None
        x_range y_range color_range (Some tx) (Some tl) xs ls Hwf Hxs Hls)
    as (lower_fig & El & Hlx & Hly & Hlc & Hls').
  rewrite El. clear El. cbn [mbind result_bind].
  do 4 eexists. split_and!; try reflexivity; try eassumption.
  by rewrite Hus', Hls', (scatter_configs_same_kind _ _ Hcfg).
Qed.

Lemma update_scatter_shared_ranges_witness :
  ∃ upper_fig lower_fig x_range shared,
    update_scatter df3 (Some "Support vote")
      (Some "legislator_total_voter_density") = Ok [upper_fig; lower_fig] ∧
    calculate_consistent_ranges df3 "legislator_vote" "against_recall_vote"
      "legislator_total_voter_density" = Ok (x_range, shared, shared) ∧
    range (xaxis (layout upper_fig)) = Some x_range ∧
    range (xaxis (layout lower_fig)) = Some x_range ∧
    range (yaxis (layout upper_fig)) = Some shared ∧
    range (yaxis (layout lower_fig)) = Some shared ∧
    crange (coloraxis (layout upper_fig)) = Some shared ∧
    crange (coloraxis (layout lower_fig)) = Some shared ∧
    colorscale (coloraxis (layout upper_fig)) =
      colorscale (coloraxis (layout lower_fig)).
Proof.
  apply (update_scatter_shared_ranges df3 "Support vote"
           "legislator_total_voter_density"
           (mkScatterConfig "legislator_vote" "against_recall_vote")
           [100; 50; 25]%float [120; 80; 100]%float [90; 110; 70]%float wf_df3);
    [discriminate|discriminate|reflexivity..].
Defined.

(** ** Refresh, initial figures and hover *)

(** X13: a hover callback without any hover event and without a prior map
    figure returns exactly the figures of the refresh callbacks, in the
    order of its outputs: the two of [update_scatter], the two initial cross
    plots and the one of [update_map]; where one of them raises, it raises
    the same exception. *)
Theorem hover_callback_without_hover_is_refresh df y_axis_type x_axis_column
    main_dropdown :
  y_axis_type ≠ "" → x_axis_column ≠ "" → main_dropdown ≠ "" →
  update_all_visualizations_with_highlight df None None None None None
    (Some y_axis_type) (Some x_axis_column) (Some main_dropdown) None =
  (scatter_figs ← update_scatter df (Some y_axis_type) (Some x_axis_column);
   cross_figs ← create_initial_cross_scatter_plots df;
   map_fig ← update_map df (Some main_dropdown);
   Ok (scatter_figs ++ cross_figs ++ [map_fig])).
Proof.
  intros Hy Hx Hm.
  unfold update_all_visualizations_with_highlight, update_scatter,
    create_initial_cross_scatter_plots, update_map.
  rewrite (control_value_Some _ Hy), (control_value_Some _ Hx),
    (control_value_Some _ Hm).
  change (resolve_highlight_index df None None None None None) with (@None Z).
  destruct (scatter_configs !! y_axis_type) as [config|]; [|done].
  cbn [mbind result_bind].
  destruct (calculate_consistent_ranges df (upper config) (lower config)
              x_axis_column) as [[[x_range y_range] color_range]|e]; [|done].
  cbn [mbind result_bind].
  destruct (get_axis_title_Some x_axis_column) as [tx ->].
  destruct (get_axis_title_Some (upper config)) as [tu ->].
  destruct (get_axis_title_Some (lower config)) as [tl ->].
  destruct (get_axis_title_Some main_dropdown) as [tm ->].
  cbn [mbind result_bind].
  destruct (create_scatter_plot df (upper config) _ _ _ _ _ _ _); [|done].
  cbn [mbind result_bind].
  destruct (create_scatter_plot df (lower config) _ _ _ _ _ _ _); [|done].
  cbn [mbind result_bind].
  destruct (create_cross_scatter_plot df "legislator_rate" _ _); [|done].
  cbn [mbind result_bind].
  destruct (create_cross_scatter_plot df "legislator_vote" _ _); [|done].
  cbn [mbind result_bind option_bind].
  by destruct (create_map_plot df _ _ _).
Qed.

Lemma hover_callback_without_hover_is_refresh_witness :
  update_all_visualizations_with_highlight df3 None None None None None
    (Some "Voting Rate") (Some "legislator_total_voter_density")
    (Some "legislator_rate") None =
  (scatter_figs ← update_scatter df3 (Some "Voting Rate")
                    (Some "legislator_total_voter_density");
   cross_figs ← create_initial_cross_scatter_plots df3;
   map_fig ← update_map df3 (Some "legislator_rate");
   Ok (scatter_figs ++ cross_figs ++ [map_fig])).
Proof.
  apply (hover_callback_without_hover_is_refresh df3 "Voting Rate"
           "legislator_total_voter_density" "legislator_rate"); discriminate.
Defined.

(** X14: the scatter figures the page starts with are those
    [update_scatter] returns for the default values of the two dropdowns,
    figure for figure and error for error. *)
Theorem create_initial_scatter_plots_is_default_refresh df :
  create_initial_scatter_plots df =
    update_scatter df (Some "Support vote rate")
      (Some "legislator_total_voter_density").
Proof.
  unfold create_initial_scatter_plots, update_scatter.
  change (control_value (Some "Support vote rate"))
    with (Some "Support vote rate").
  change (control_value (Some "legislator_total_voter_density"))
    with (Some "legislator_total_voter_density").
  reflexivity.
Qed.

(** ** [update_map] *)

(** X6: [update_map] computes the colour bar title before it renders.  With
    the dropdown cleared it raises [AttributeError] and never reaches the
    empty-figure guard of [create_map_plot]; with the empty string it
    returns the empty figure; with a numeric column of the dataset (a column
    of [columns]; the string columns [area_name] and [region] are not
    covered) it returns the choropleth trace and nothing else. *)
Theorem update_map_cases df :
  update_map df None = Raise (AttributeError "replace") ∧
  create_map_plot df None None None = Ok go_Figure ∧
  update_map df (Some "") = Ok go_Figure ∧
  ∀ col zs,
    col ≠ "" → columns df !! col = Some zs →
    ∃ fig, update_map df (Some col) = Ok fig ∧
           data fig = [px_choropleth_trace df zs] ∧
           highlight_overlays fig = [].
Proof.
  split_and!; [done|done|done|].
  intros col zs Hne Hc. unfold update_map.
  destruct (get_axis_title_Some col) as [t ->]. rewrite bind_Ok.
  destruct (create_map_plot_eq df col (Some t) zs Hne Hc) as [lay E].
  rewrite E. by eexists.
Qed.

Lemma update_map_cases_witness :
  ∃ fig, update_map df3 (Some "legislator_rate") = Ok fig ∧
         data fig = [px_choropleth_trace df3 [0.4; 0.6; 0.8]%float] ∧
         highlight_overlays fig = [].
Proof.
  apply (update_map_cases df3); [discriminate|reflexivity].
Defined.

(** ** Axis titles *)

Lemma replace_underscore_length s :
  String.length (Py.replace_underscore s) = String.length s.
Proof. induction s as [|c s IH]; cbn; [done|]. by rewrite IH. Qed.

Lemma title_from_length b s : String.length (Py.title_from b s) = String.length s.
Proof. revert b. induction s as [|c s IH]; intros b; cbn; [done|]. by rewrite IH. Qed.

Lemma title_char_not_underscore b c rest :
  String.prefix "_"
    (String
       (let c' := if Ascii.eqb c "_" then " "%char else c in
        if Py.is_upper c' || Py.is_lower c'
        then if b : bool then Py.lower_ascii c' else Py.upper_ascii c'
        else c')
       rest) = false.
Proof.
  destruct b, c as [[] [] [] [] [] [] [] []]; vm_compute; reflexivity.
Qed.

Lemma title_replace_no_underscore b s :
  Py.contains "_" (Py.title_from b (Py.replace_underscore s)) = false.
Proof.
  revert b. induction s as [|c s IH]; intros b; [done|].
  cbn [Py.replace_underscore Py.title_from Py.contains].
  rewrite IH, orb_false_r. apply title_char_not_underscore.
Qed.

(** X15: [get_axis_title] on a name: a key of [title_mapping] gives its
    mapped title; any other name gives the name with every underscore
    replaced by a space and every word capitalised, a title of the same
    length that contains no underscore. *)
Theorem get_axis_title_fallback c :
  (∀ t, title_mapping !! c = Some t → get_axis_title (Some c) = Ok t) ∧
  (title_mapping !! c = None →
   ∃ t, get_axis_title (Some c) = Ok t ∧
        t = Py.title (Py.replace_underscore c) ∧
        String.length t = String.length c ∧
        Py.contains "_" t = false).
Proof.
  unfold get_axis_title. split.
  - by intros t ->.
  - intros ->. eexists. split_and!; [reflexivity|reflexivity|..].
    + cbn [default]. unfold Py.title.
      by rewrite title_from_length, replace_underscore_length.
    + apply title_replace_no_underscore.
Qed.

Lemma get_axis_title_fallback_witness :
  get_axis_title (Some "legislator_rate") = Ok "2024 立委得票率" ∧
  ∃ t, get_axis_title (Some "area_sq_m") = Ok t ∧
       t = Py.title (Py.replace_underscore "area_sq_m") ∧
       String.length t = String.length "area_sq_m" ∧
       Py.contains "_" t = false.
Proof.
  split.
  - apply (get_axis_title_fallback "legislator_rate"). reflexivity.
  - apply (get_axis_title_fallback "area_sq_m"). reflexivity.
Defined.

Example get_axis_title_area_sq_m :
  get_axis_title (Some "area_sq_m") = Ok "Area Sq M".
Proof. reflexivity. Qed.

(** ** Columns without data *)

(** X16: on columns without a value that is not NaN, as on a dataset
    without rows, the shared-range computation does not fail: it returns an
    x-range of two NaNs, and a shared range that is [0, 1.05] for a
    rate-named pair and [0, NaN] otherwise. *)
Theorem calculate_consistent_ranges_no_data df upper_col lower_col
    x_axis_column xs us ls :
  columns df !! x_axis_column = Some xs →
  columns df !! upper_col = Some us →
  columns df !! lower_col = Some ls →
  dropna xs = [] → dropna us = [] → dropna ls = [] →
  calculate_consistent_ranges df upper_col lower_col x_axis_column =
    let shared : Range :=
      if is_rate upper_col && is_rate lower_col then (0, 1.05)%float
      else (0, nan)%float in
    Ok ((nan, nan), shared, shared).
Proof.
  intros Hx Hu Hl Hxs Hus Hls.
  rewrite (calculate_consistent_ranges_eq _ _ _ _ _ _ _ Hx Hu Hl).
  unfold series_max. rewrite Hxs, Hus, Hls.
  by destruct (is_rate upper_col && is_rate lower_col).
Qed.

Lemma calculate_consistent_ranges_no_data_witness :
  calculate_consistent_ranges df_no_rows "legislator_vote"
    "against_recall_vote" "legislator_total_voter_density" =
    Ok ((nan, nan), (0, nan)%float, (0, nan)%float).
Proof.
  apply (calculate_consistent_ranges_no_data df_no_rows "legislator_vote"
           "against_recall_vote" "legislator_total_voter_density" [] [] []);
    reflexivity.
Defined.

(** ** The hover callback on the sample dataset *)

Lemma hover_callback_keeps_layouts_witness :
  ∃ figs,
    update_all_visualizations_with_highlight df3 (hover_at 1) None None None
      None (Some "Support vote") (Some "legislator_total_voter_density")
      (Some "legislator_rate") (Some prior_map_fig) = Ok figs ∧
    ∃ refresh cross,
      update_scatter df3 (Some "Support vote")
        (Some "legislator_total_voter_density") = Ok refresh ∧
      create_initial_cross_scatter_plots df3 = Ok cross ∧
      layout <$> take 4 figs = layout <$> (refresh ++ cross) ∧
      length figs = 5%nat.
Proof.
  destruct (update_all_visualizations_with_highlight df3 (hover_at 1) None
              None None None (Some "Support vote")
              (Some "legislator_total_voter_density") (Some "legislator_rate")
              (Some prior_map_fig)) as [figs|e] eqn:E;
    [|by vm_compute in E].
  exists figs. split; [reflexivity|].
  apply (hover_callback_keeps_layouts df3 "Support vote"
           "legislator_total_voter_density" "legislator_rate"
           (mkScatterConfig "legislator_vote" "against_recall_vote")
           [100; 50; 25]%float [120; 80; 100]%float [90; 110; 70]%float
           [0.4; 0.6; 0.8]%float [0.3; 0.5; 0.7]%float [120; 80; 100]%float
           [90; 110; 70]%float wf_df3 ltac:(discriminate) ltac:(discriminate)
           ltac:(discriminate) eq_refl eq_refl eq_refl eq_refl eq_refl eq_refl
           eq_refl eq_refl (hover_at 1) None None None None
           (Some prior_map_fig) figs E).
Defined.

Lemma hover_callback_replaces_highlight_witness :
  ∃ upper_fig lower_fig cross_upper_fig cross_lower_fig map_fig,
    update_all_visualizations_with_highlight df3 (hover_at 1) None None None
      None (Some "Support vote") (Some "legislator_total_voter_density")
      (Some "legislator_rate") (Some prior_map_fig) =
      Ok [upper_fig; lower_fig; cross_upper_fig; cross_lower_fig; map_fig] ∧
    update_all_visualizations_with_highlight df3 None None (hover_at 0) None
      None (Some "Support vote") (Some "legislator_total_voter_density")
      (Some "legislator_rate") (Some (figure_state map_fig)) =
    update_all_visualizations_with_highlight df3 None None (hover_at 0) None
      None (Some "Support vote") (Some "legislator_total_voter_density")
      (Some "legislator_rate") (Some prior_map_fig).
Proof.
  apply (hover_callback_replaces_highlight df3 "Support vote"
           "legislator_total_voter_density" "legislator_rate"
           (mkScatterConfig "legislator_vote" "against_recall_vote")
           [100; 50; 25]%float [120; 80; 100]%float [90; 110; 70]%float
           [0.4; 0.6; 0.8]%float [0.3; 0.5; 0.7]%float [120; 80; 100]%float
           [90; 110; 70]%float wf_df3 ltac:(discriminate) ltac:(discriminate)
           ltac:(discriminate) eq_refl eq_refl eq_refl eq_refl eq_refl eq_refl
           eq_refl eq_refl (hover_at 1) None None None None
           None None (hover_at 0) None None).
  repeat constructor; by eexists.
Defined.

Lemma hover_callback_no_hover_keeps_map_witness :
  ∃ upper_fig lower_fig cross_upper_fig cross_lower_fig,
    update_all_visualizations_with_highlight df3 (hover_at 9) (hover_at 1) None
      None None (Some "Support vote") (Some "legislator_total_voter_density")
      (Some "legislator_rate")
      (Some (mkFigureDict
               (Some [go_Scattermapbox [] [] "base"; go_Scattermapbox [] [] "roads"])
               (Some empty_layout))) =
      Ok [upper_fig; lower_fig; cross_upper_fig; cross_lower_fig;
          {| data := [go_Scattermapbox [] [] "base"; go_Scattermapbox [] [] "roads"];
             layout := empty_layout |}].
Proof.
  apply (hover_callback_no_hover_keeps_map df3 "Support vote"
           "legislator_total_voter_density" "legislator_rate"
           (mkScatterConfig "legislator_vote" "against_recall_vote")
           [100; 50; 25]%float [120; 80; 100]%float [90; 110; 70]%float
           [0.4; 0.6; 0.8]%float [0.3; 0.5; 0.7]%float [120; 80; 100]%float
           [90; 110; 70]%float wf_df3 ltac:(discriminate) ltac:(discriminate)
           ltac:(discriminate) eq_refl eq_refl eq_refl eq_refl eq_refl eq_refl
           eq_refl eq_refl (hover_at 9) (hover_at 1) None None None).
  - repeat constructor; by eexists.
  - reflexivity.
Defined.

Lemma hover_callback_unnamed_trace_raises_witness :
  update_all_visualizations_with_highlight df3 (hover_at 1) None None None None
    (Some "Support vote") (Some "legislator_total_voter_density")
    (Some "legislator_rate")
    (Some (mkFigureDict (Some [go_Scattermapbox [] [] "base"; unnamed_trace])
             (Some empty_layout))) =
    Raise (AttributeError "startswith").
Proof.
  apply (hover_callback_unnamed_trace_raises df3 "Support vote"
           "legislator_total_voter_density" "legislator_rate"
           (mkScatterConfig "legislator_vote" "against_recall_vote")
           [100; 50; 25]%float [120; 80; 100]%float [90; 110; 70]%float
           [0.4; 0.6; 0.8]%float [0.3; 0.5; 0.7]%float [120; 80; 100]%float
           [90; 110; 70]%float wf_df3 ltac:(discriminate) ltac:(discriminate)
           ltac:(discriminate) eq_refl eq_refl eq_refl eq_refl eq_refl eq_refl
           eq_refl eq_refl (hover_at 1) None None None None).
  apply Exists_cons_tl, Exists_cons_hd. reflexivity.
Defined.

Lemma resolve_highlight_index_is_row_witness :
  (0 ≤ 1 < len df3)%Z ∧ is_Ok (iloc (geometry df3) 1) ∧
  resolve_highlight_index df_no_rows (hover_at 0) None None None None = None.
Proof.
  destruct (resolve_highlight_index_is_row df3 (hover_at 1) None None None None)
    as [Hrow _].
  destruct (Hrow 1%Z eq_refl) as [Hbounds Hiloc].
  split; [exact Hbounds|]. split; [exact Hiloc|].
  apply (resolve_highlight_index_is_row df_no_rows (hover_at 0) None None
           None None).
  reflexivity.
Defined.
